(** * MaxText serving glue and the sharding micro-benchmark

    A shallow embedding of

    - [MaxText/maxengine_config.py]   (module [MaxengineConfig]),
    - [MaxText/maxengine_server.py]   (module [MaxengineServer]),
    - [pedagogical_examples/xaot_shardings.py] (module [XaotShardings]),

    together with the properties the specification states about them.

    Conventions.  Python [int] is [Z]; a Python tuple or list is a
    [list]; a [dict] with string keys is a [gmap string _]; a raised
    exception is the left component of a sum.  What the code obtains
    from JAX, JetStream, NumPy or the operating system (the device
    list, the random generator, automatic differentiation, the
    compiler, the wall clock) is a parameter, a [Variable] of the
    enclosing [Section] or a member of the classes [Jax] and
    [FloatOps]: the theorems hold for every behaviour of those parts
    that satisfies the stated laws. *)

From Stdlib Require Import ZArith QArith Lia.
From Stdlib Require Import Floats.SpecFloat.
From stdpp Require Import base option list strings pretty gmap fin_maps.

Local Open Scope string_scope.

(** Exceptions the embedded code raises itself. *)
Inductive exn : Type :=
| NotImplementedError
| AssertionError (msg : string)
| ZeroDivisionError
| ValueError
| KeyError (key : string)
| TypeError
| IndexError
| AttributeError
| NameError (name : string)
| OverflowError.

(** [result A] is either a raised exception or a returned value. *)
Definition result (A : Type) : Type := exn + A.

Definition raise {A} (e : exn) : result A := inl e.
Definition ret {A} (a : A) : result A := inr a.
Definition bind {A B} (m : result A) (k : A -> result B) : result B :=
  match m with
  | inl e => inl e
  | inr a => k a
  end.

Declare Scope result_scope.
Delimit Scope result_scope with result.
Notation "'let*' x ':=' m 'in' k" := (bind m (fun x => k))
  (at level 10, x name, m at level 100, k at level 200) : result_scope.
Local Open Scope result_scope.

Definition returns {A} (m : result A) : Prop := exists a, m = inr a.

(** [functools.partial(f, config=config)]: the remaining positional
    argument is the first one of [f]. *)
Definition partial {A B C} (f : A -> B -> C) (config : B) : A -> C :=
  fun devices => f devices config.

(* ================================================================= *)
(** ** maxengine_config.py *)

Module MaxengineConfig.

Section Config.
(** [config] is typed [Any] in the source; [Devices] is
    [config_lib.Devices] and [Engine] is [engine_api.Engine]. *)
Context {Config Devices Engine : Type}.

(** The constructor [maxengine.MaxEngine]. *)
Variable MaxEngine : Config -> Engine.

(** [jax.device_count()]. *)
Variable device_count : nat.

Definition create_maxengine (devices : Devices) (config : Config) : Engine :=
  (* del devices *)
  MaxEngine config.

(** [config_lib.ServerConfig], with the six fields the code sets. *)
Record ServerConfig : Type := mkServerConfig {
  prefill_slices : list string;
  generate_slices : list string;
  interleaved_slices : list string;
  prefill_engine_create_fns : list (Devices -> Engine);
  generate_engine_create_fns : list (Devices -> Engine);
  interleaved_engine_create_fns : list (Devices -> Engine)
}.

Definition get_server_config (config_str : string) (config : Config)
  : result ServerConfig :=
  if String.eqb config_str "MaxtextInterleavedServer" then
    ret {| prefill_slices := [];
           generate_slices := [];
           interleaved_slices := ["tpu=" +:+ pretty device_count];
           prefill_engine_create_fns := [];
           generate_engine_create_fns := [];
           interleaved_engine_create_fns :=
             [partial create_maxengine config] |}
  else
    raise NotImplementedError.

End Config.

End MaxengineConfig.

(* ================================================================= *)
(** ** maxengine_server.py *)

Module MaxengineServer.

Import MaxengineConfig.

Section Server.
Context {Config Devices Engine : Type}.
Variable MaxEngine : Config -> Engine.
Variable device_count : nat.

(** [server_lib.get_devices()]. *)
Variable get_devices : Devices.

(** The keyword arguments of the one call [server_lib.run(...)]. *)
Record run_call : Type := mkRunCall {
  threads : Z;
  port : Z;
  config : @ServerConfig Devices Engine;
  devices : Devices
}.

(** [main] up to the call of [server_lib.run]: the arguments the
    server is started with.  What follows in the source only waits
    for the server to terminate. *)
Definition main (cfg : Config) : result run_call :=
  let devices := get_devices in
  let* server_config :=
    get_server_config MaxEngine device_count "MaxtextInterleavedServer" cfg in
  ret {| threads := 128;
         port := 9000;
         config := server_config;
         devices := devices |}.

End Server.

End MaxengineServer.

(* ================================================================= *)
(** ** xaot_shardings.py *)

Module XaotShardings.

(** *** Command line *)

(** The namespace [parser.parse_args()] returns.  Every numeric option
    has [type=int], so any integer (also zero or a negative one) can
    arrive here. *)
Record Args : Type := mkArgs {
  profiler_path : string;
  embedding_dimension : Z;
  batch_size : Z;
  num_layers : Z;
  dcn_data_parallelism : Z;
  dcn_fsdp_parallelism : Z;
  dcn_tensor_parallelism : Z;
  ici_data_parallelism : Z;
  ici_fsdp_parallelism : Z;
  ici_tensor_parallelism : Z
}.


(** *** Python floats *)

(** The float operations the script uses.  The embedding is generic in
    the float type, so that no law of real arithmetic is assumed where
    the code only combines floats; [Q_float] below is the instance with
    exact rational arithmetic. *)
Class FloatOps (F : Type) : Type := {
  (** [float(n)], the implicit conversion in [x / n] *)
  of_int : Z -> F;
  (** [a / b] on two ints, [b] not zero *)
  int_truediv : Z -> Z -> F;
  (** the quotient [a / b] of two ints is too large for a float, so
      that [a / b] raises [OverflowError] *)
  int_truediv_overflow : Z -> Z -> bool;
  (** [x / y] on floats, [y] not zero *)
  fdiv : F -> F -> F;
  (** the builtin [sum] on a list of floats *)
  fsum : list F -> F;
  (** [y == 0] *)
  is_zero : F -> bool;
  (** [timedelta.total_seconds()] of a duration in microseconds *)
  total_seconds : Z -> F
}.

#[export] Instance Q_float : FloatOps Q := {|
  of_int := inject_Z;
  int_truediv := fun a b => (inject_Z a / inject_Z b)%Q;
  int_truediv_overflow := fun _ _ => false;
  fdiv := Qdiv;
  fsum := fun l => fold_left Qplus l 0%Q;
  is_zero := fun q => Qeq_bool q 0;
  total_seconds := fun us => (inject_Z us / inject_Z 1000000)%Q
|}.

(** Binary64, the floats of CPython, on the specification of IEEE 754
    arithmetic of the standard library. *)

(** [float(z)]: the int rounded to the nearest float, ties to even. *)
Definition binary64_of_int (z : Z) : spec_float :=
  match z with
  | Z0 => S754_zero false
  | _ => binary_normalize 53 1024 z 0 false
  end.

(** [a / b] on two ints, [b] not zero: the exact quotient rounded once
    to the nearest float.  The quotient is computed to at least 56
    bits, a last bit records whether the division left a remainder, and
    that integer is rounded; a quotient beyond the largest float gives
    an infinity here, which is where Python raises [OverflowError]. *)
Definition binary64_truediv (a b : Z) : spec_float :=
  if (a =? 0)%Z then S754_zero (b <? 0)%Z
  else
    let s := Z.max 0 (57 + Z.log2 (Z.abs b) - Z.log2 (Z.abs a)) in
    let n := (Z.abs a * 2 ^ s)%Z in
    let q := (n / Z.abs b)%Z in
    let sticky := if (n mod Z.abs b =? 0)%Z then 0%Z else 1%Z in
    binary_normalize 53 1024
      (Z.sgn a * Z.sgn b * (2 * q + sticky))%Z (- s - 1)%Z false.

Definition binary64_is_zero (x : spec_float) : bool :=
  match x with
  | S754_zero _ => true
  | _ => false
  end.

Definition binary64_is_infinite (x : spec_float) : bool :=
  match x with
  | S754_infinity _ => true
  | _ => false
  end.

(** [fsum] adds from left to right; [total_seconds] is the division of
    the microseconds by [10^6], as [timedelta] computes it. *)
#[export] Instance binary64_float : FloatOps spec_float := {|
  of_int := binary64_of_int;
  int_truediv := binary64_truediv;
  int_truediv_overflow := fun a b =>
    binary64_is_infinite (binary64_truediv a b);
  fdiv := SFdiv 53 1024;
  fsum := fun l => fold_left (SFadd 53 1024) l (S754_zero false);
  is_zero := binary64_is_zero;
  total_seconds := fun us => binary64_truediv us 1000000
|}.

Section Division.
Context {F : Type} `{FloatOps F}.

(** [a / b] with [a], [b] ints *)
Definition truediv_int_int (a b : Z) : result F :=
  if decide (b = 0%Z) then raise ZeroDivisionError
  else if int_truediv_overflow a b then raise OverflowError
  else ret (int_truediv a b).

(** [x / n] with [x] a float and [n] an int *)
Definition truediv_float_int (x : F) (n : Z) : result F :=
  if decide (n = 0%Z) then raise ZeroDivisionError
  else ret (fdiv x (of_int n)).

(** [x / y] with [x], [y] floats *)
Definition truediv_float_float (x y : F) : result F :=
  if is_zero y then raise ZeroDivisionError
  else ret (fdiv x y).
End Division.

(** *** simple_timeit *)

Section Timeit.
(** [St] is the state of everything outside the function: the wall
    clock, the devices, whatever [f] touches. *)
Context {St F : Type} `{FloatOps F}.

(** [datetime.datetime.now()], in microseconds, the resolution of
    [datetime]. *)
Variable now : St -> Z * St.

(** The [for] loop; [n] iterations remain and [outcomes] is the list
    built so far. *)
Fixpoint timing_loop (f : St -> St) (n : nat) (outcomes : list F) (st : St)
  : list F * St :=
  match n with
  | O => (outcomes, st)
  | S n' =>
      let '(s, st) := now st in
      let st := f st in
      let '(e, st) := now st in
      timing_loop f n' (outcomes ++ [total_seconds (e - s)]) st
  end.

(** [tries] and [verbose] are the optional arguments, [None] when the
    caller leaves them out.  The [print] under [verbose] does not
    change the result and is left out. *)
Definition simple_timeit (f : St -> St)
    (tries : option Z) (verbose : option bool) (st : St)
  : result F * St :=
  let tries := default 5%Z tries in
  let verbose := default true verbose in
  let outcomes := [] in
  let st := f st in (* warm it up! *)
  let '(outcomes, st) := timing_loop f (Z.to_nat tries) outcomes st in
  let average_time :=
    match outcomes with
    | [] => truediv_int_int 0 (Z.of_nat (length outcomes))
    | _ => truediv_float_int (fsum outcomes) (Z.of_nat (length outcomes))
    end in
  (average_time, st).

(** Reference definitions for the statements about [simple_timeit]. *)

(** One call of [f] between two readings of the clock: its duration
    in seconds and the state it leaves. *)
Definition timed_call (f : St -> St) (st : St) : F * St :=
  let '(s, st1) := now st in
  let '(e, st2) := now (f st1) in
  (total_seconds (e - s), st2).

(** The durations of [n] timed calls in a row, starting in [st]. *)
Fixpoint durations (f : St -> St) (n : nat) (st : St) : list F :=
  match n with
  | O => []
  | S n' => let '(d, st') := timed_call f st in d :: durations f n' st'
  end.

(** The state after [n] timed calls. *)
Fixpoint after_timed_calls (f : St -> St) (n : nat) (st : St) : St :=
  match n with
  | O => st
  | S n' => after_timed_calls f n' (snd (timed_call f st))
  end.

(** Sum divided by count. *)
Definition mean (l : list F) : F :=
  fdiv (fsum l) (of_int (Z.of_nat (length l))).
End Timeit.

(** Instrumentation for counting calls: the state is paired with the
    list of events so far, most recent first. *)
Inductive event : Type :=
| EvCall        (* f() *)
| EvNow (t : Z) (* datetime.datetime.now() returned t *).

Definition logged_call {St} (f : St -> St) : St * list event -> St * list event :=
  fun '(st, log) => (f st, EvCall :: log).

Definition logged_now {St} (now : St -> Z * St)
  : St * list event -> Z * (St * list event) :=
  fun '(st, log) => let '(t, st') := now st in (t, (st', EvNow t :: log)).

Definition is_call (e : event) : bool :=
  match e with EvCall => true | EvNow _ => false end.

(** The events of one timed call, oldest first. *)
Definition timed_events (r : Z * Z) : list event :=
  [EvNow (fst r); EvCall; EvNow (snd r)].

(** A clock that only advances while [f] runs: the state is the current
    time and the number of calls made so far, and the [k]-th call
    (counted from 0) takes [dur k] microseconds. *)
Definition clock_state : Type := Z * nat.

Definition clock_now : clock_state -> Z * clock_state :=
  fun st => (fst st, st).

Definition clock_call (dur : nat -> Z) : clock_state -> clock_state :=
  fun '(t, k) => ((t + dur k)%Z, S k).

(** *** Arrays and the JAX interface *)

Inductive dtype : Type := bfloat16 | float32.

(** [PartitionSpec(...)]: per array dimension, the mesh axes it is
    sharded over. *)
Definition PartitionSpec : Type := list (list string).

(** The operations of JAX the script calls.  [Array] is a JAX array,
    [Key] a PRNG key. *)
Class Jax (Array Key : Type) : Type := {
  shape : Array -> list Z;
  dtype_of : Array -> dtype;
  (** [jax.random.PRNGKey(seed)] *)
  PRNGKey : Z -> Key;
  (** [jax.random.split(key, num)] *)
  random_split : Key -> nat -> list Key;
  (** [jax.random.normal(key, shape, dtype=...)] *)
  random_normal : Key -> list Z -> dtype -> result Array;
  (** [jax.random.uniform(key, shape, dtype=...)] *)
  random_uniform : Key -> list Z -> dtype -> result Array;
  (** [c * a] for a Python float literal [c] *)
  scalar_mul : Q -> Array -> Array;
  (** [a - b]; the script applies it to arrays of equal shape only *)
  array_sub : Array -> Array -> Array;
  (** [a @ b] *)
  matmul : Array -> Array -> result Array;
  (** [a.T] *)
  transpose : Array -> Array;
  (** [jax.nn.sigmoid(a)] *)
  sigmoid : Array -> Array;
  (** [jax.numpy.sum(a)] *)
  jnp_sum : Array -> Array;
  (** [jax.value_and_grad(f, argnums=[1])], applied to the two
      arguments of [f]: the value and, because [argnums] is a list, a
      one-element tuple holding the gradient with respect to the second
      argument. *)
  value_and_grad :
    (Array -> list (gmap string Array) -> result Array) ->
    Array -> list (gmap string Array) ->
    result (Array * list (list (gmap string Array)))
}.

Section Layers.
Context {Array Key : Type} `{Jax Array Key}.

(** One layer is a dict from names to arrays; the network is a tuple
    of layers. *)
Local Abbreviation Layer := (gmap string Array).

(** [d[k]] *)
Definition getitem (d : Layer) (k : string) : result Array :=
  match d !! k with
  | Some a => ret a
  | None => raise (KeyError k)
  end.

(** [t[i]] on a tuple *)
Definition tuple_get {A} (t : list A) (i : nat) : result A :=
  match t !! i with
  | Some a => ret a
  | None => raise IndexError
  end.

(** Two trees have the same structure, and equal shapes and dtypes
    at corresponding leaves. *)
Definition same_leaf (a b : Array) : Prop :=
  shape a = shape b /\ dtype_of a = dtype_of b.

Definition same_layer (l g : Layer) : Prop :=
  dom l = dom g /\
  forall k a b, l !! k = Some a -> g !! k = Some b -> same_leaf a b.

Definition same_structure (ls gs : list Layer) : Prop :=
  Forall2 same_layer ls gs.

(** [jax.tree_map(f, tree, rest)] on dicts: the keys must agree. *)
Definition dict_map2 (f : Array -> Array -> Array) (d1 d2 : Layer)
  : result Layer :=
  if decide (dom d1 = dom d2) then ret (map_zip_with f d1 d2)
  else raise ValueError.

(** [jax.tree_map(f, tree, rest)] on tuples of dicts. *)
Fixpoint tree_map2 (f : Array -> Array -> Array) (t1 t2 : list Layer)
  : result (list Layer) :=
  match t1, t2 with
  | [], [] => ret []
  | d1 :: t1', d2 :: t2' =>
      let* d := dict_map2 f d1 d2 in
      let* t := tree_map2 f t1' t2' in
      ret (d :: t)
  | _, _ => raise ValueError
  end.

Definition data_sharding : PartitionSpec := [["data"; "fsdp"]; ["tensor"]].
(* We assume parameters are stored in a decreasing order of dimension size *)
Definition parameter_sharding : PartitionSpec := [["tensor"]; ["fsdp"]].

(** [with_sharding_constraint] places the array; its value is
    unchanged. *)
Definition with_sharding_constraint (x : Array) (spec : PartitionSpec)
  : Array := x.

Definition multiply_layer (in_act : Array) (in_layer : Layer) : result Array :=
  let* emb2ff := getitem in_layer "EMB2FF" in
  let* m1 := matmul in_act (transpose emb2ff) in
  let M1 := sigmoid m1 in
  let M1 := with_sharding_constraint M1 data_sharding in
  let* ff2emb := getitem in_layer "FF2EMB" in
  let* m2 := matmul M1 ff2emb in
  let M2 := sigmoid m2 in
  let M2 := with_sharding_constraint M2 data_sharding in
  ret M2.

(** The loop of [multiply_layers], on the layers that remain. *)
Fixpoint multiply_layers_loop (x : Array) (layers : list Layer)
  : result Array :=
  match layers with
  | [] => ret x
  | layer :: rest =>
      let* y := multiply_layer x layer in
      multiply_layers_loop (with_sharding_constraint y data_sharding) rest
  end.

Definition multiply_layers (in_act : Array) (in_layers : list Layer)
  : result (Array * list Layer) :=
  let x := in_act in
  let* x := multiply_layers_loop x in_layers in
  ret (x, in_layers).

Definition multiply_layers_with_loss (in_act : Array) (in_layers : list Layer)
  : result Array :=
  let* r := multiply_layers in_act in_layers in
  ret (jnp_sum (fst r)).

Definition multiply_layers_and_grad :=
  value_and_grad multiply_layers_with_loss.

(** [lambda param, grad: param - 1e-4 * grad] *)
Definition sgd_update (param grad : Array) : Array :=
  array_sub param (scalar_mul (1 # 10000) grad).

Definition training_step (in_act : Array) (in_layers : list Layer)
  : result (list Layer) :=
  let* r := multiply_layers_and_grad in_act in_layers in
  let grad_layers := snd r in
  let* g := tuple_get grad_layers 0 in
  let* out_layers := tree_map2 sgd_update in_layers g in
  ret out_layers.
End Layers.

(** What the script relies on from JAX: the generators return arrays of
    the requested shape and dtype (a shape has no negative dimension),
    [split] returns as many keys as asked for, multiplying by a Python
    scalar and subtracting arrays of equal shape keep shape and dtype,
    and [value_and_grad] returns the value of the function together
    with a one-element tuple whose gradient tree has the structure of
    the argument it differentiates against. *)
Class JaxLaws (Array Key : Type) `{Jax Array Key} : Prop := {
  random_split_length :
    forall (k : Key) (num : nat), length (random_split k num) = num;
  random_normal_ok :
    forall (k : Key) (shp : list Z) (dt : dtype),
      Forall (fun d => 0 <= d)%Z shp ->
      exists a, random_normal k shp dt = inr a
                /\ shape a = shp /\ dtype_of a = dt;
  random_uniform_ok :
    forall (k : Key) (shp : list Z) (dt : dtype),
      Forall (fun d => 0 <= d)%Z shp ->
      exists a, random_uniform k shp dt = inr a
                /\ shape a = shp /\ dtype_of a = dt;
  scalar_mul_shape :
    forall (c : Q) (a : Array), shape (scalar_mul c a) = shape a;
  scalar_mul_dtype :
    forall (c : Q) (a : Array), dtype_of (scalar_mul c a) = dtype_of a;
  array_sub_shape :
    forall a b : Array, shape a = shape b -> shape (array_sub a b) = shape a;
  array_sub_dtype :
    forall a b : Array,
      dtype_of a = dtype_of b -> dtype_of (array_sub a b) = dtype_of a;
  value_and_grad_ok :
    forall f (x : Array) (ls : list (gmap string Array)) (v : Array),
      f x ls = inr v ->
      exists g, value_and_grad f x ls = inr (v, [g]) /\ same_structure ls g
}.

(** *** State and exceptions together *)

(** A step of the script on a state [M]: it changes the state and
    either returns or raises. *)
Definition prog (M A : Type) : Type := M -> result A * M.

Definition pret {M A} (a : A) : prog M A := fun m => (inr a, m).

Definition pbind {M A B} (c : prog M A) (k : A -> prog M B) : prog M B :=
  fun m =>
    match c m with
    | (inl e, m') => (inl e, m')
    | (inr a, m') => k a m'
    end.

(** A computation that does not touch the state. *)
Definition lift {M A} (r : result A) : prog M A := fun m => (r, m).

Notation "'let!' x ':=' c 'in' k" := (pbind c (fun x => k))
  (at level 10, x name, c at level 100, k at level 200) : result_scope.

(** *** Devices and mesh *)

(** A device of the topology; [slice_index] is [None] when the object
    has no such attribute, and [device_str] is its [str], what an
    f-string shows of it. *)
Record Device : Type := mkDevice {
  device_id : nat;
  slice_index : option Z;
  device_str : string
}.

(** The keyword arguments of [get_topology_desc]. *)
Record topology_request : Type := mkTopologyRequest {
  platform : string;
  topology_name : string;
  chip_config_name : string;
  chips_per_host_bounds : list Z;
  num_slices : Z
}.

(** [len(l)] *)
Definition len {A} (l : list A) : Z := Z.of_nat (length l).

(** A 64-bit signed integer of NumPy: the integers modulo [2^64],
    from [-2^63] to [2^63 - 1]. *)
Definition int64 (z : Z) : Z := ((z + 2 ^ 63) mod 2 ^ 64 - 2 ^ 63)%Z.

(** [np.product(l)] on a list of ints that fit in 64 bits, for which
    NumPy makes an [int64] array: the reduction multiplies from left to
    right and wraps around silently. *)
Definition np_product (l : list Z) : Z :=
  foldl (fun acc x => int64 (acc * x)) 1%Z l.

(** [x * y] on two [np.int64] scalars: it wraps around as well (NumPy
    only warns). *)
Definition int64_mul (x y : Z) : Z := int64 (x * y).

(** [assert cond, msg] *)
Definition py_assert (cond : bool) (msg : string) : result unit :=
  if cond then ret tt else raise (AssertionError msg).

(** [max(x.slice_index for x in ds)] *)
Fixpoint slice_indices (ds : list Device) : result (list Z) :=
  match ds with
  | [] => ret []
  | d :: ds' =>
      match slice_index d with
      | None => raise AttributeError
      | Some i => let* r := slice_indices ds' in ret (i :: r)
      end
  end.

Definition py_max (l : list Z) : result Z :=
  match l with
  | [] => raise ValueError
  | x :: l' => ret (foldl Z.max x l')
  end.

Definition max_slice_index (ds : list Device) : result Z :=
  let* l := slice_indices ds in py_max l.

(** The functions the script compiles ahead of time. *)
Inductive script_function : Type := Gen_data | Gen_layers | Training_step.

Record Mesh {DeviceArray : Type} : Type := mkMesh {
  mesh_devices : DeviceArray;
  axis_names : list string
}.
Arguments Mesh : clear implicits.

(** The state the script acts on: the files it writes itself with
    [open], by name, and the rest of the world (clock, devices,
    profiler, and the files the libraries keep, such as the traces of
    the profiler). *)
Record machine {Bytes St : Type} : Type := mkMachine {
  files : gmap string Bytes;
  outside : St
}.
Arguments machine : clear implicits.

(** What the last [print] of the script shows. *)
Record report {F : Type} : Type := mkReport {
  report_time : F;
  report_TFLOP : F;
  report_TFLOP_per_s : F
}.
Arguments report : clear implicits.

Section Script.
Context {Array Key F St DeviceArray Bytes : Type}.
Context `{Jax Array Key} `{FloatOps F}.

Local Abbreviation Layer := (gmap string Array).

(** [args = parser.parse_args()] *)
Variable args : Args.

(** [get_topology_desc(...).devices] and [jax.devices()] *)
Variable get_topology_desc : topology_request -> list Device.
Variable jax_devices : list Device.

(** [mesh_utils.create_device_mesh] and
    [mesh_utils.create_hybrid_device_mesh] *)
Variable create_device_mesh : list Z -> list Device -> result DeviceArray.
Variable create_hybrid_device_mesh :
  list Z -> list Z -> list Device -> result DeviceArray.

(** Example arguments handed to [lower]. *)
Inductive example_arg : Type :=
| ShapedKey (* jax.core.ShapedArray(key.shape, key.dtype) *)
| ArgArray (a : Array)
| ArgLayers (l : list Layer).

(** What [xaot_save] hands to [pjit], [lower], [compile], [serialize]
    and [pickle.dump]. *)
Record xaot_request : Type := mkXaotRequest {
  xr_func : script_function;
  xr_mesh : Mesh DeviceArray;
  xr_example_args : list example_arg;
  xr_in_shardings : option (list PartitionSpec);
  xr_out_shardings : option PartitionSpec
}.

(** The bytes [pickle.dump] writes for the serialized executable that
    [pjit], [lower], [compile] and [serialize] produce. *)
Variable pickled_executable : xaot_request -> result Bytes.

(** [datetime.datetime.now()], [jax.profiler.start_trace],
    [jax.profiler.stop_trace], and running a jitted function on the
    activations and the layers until its result is ready. *)
Variable now : St -> Z * St.
Variable start_trace : string -> St -> St.
Variable stop_trace : St -> St.
Variable run_jitted : script_function -> Array -> list Layer -> St -> St.

Definition dcn_parallelism : list Z :=
  [dcn_data_parallelism args; dcn_fsdp_parallelism args;
   dcn_tensor_parallelism args].
Definition ici_parallelism : list Z :=
  [ici_data_parallelism args; ici_fsdp_parallelism args;
   ici_tensor_parallelism args].

Definition topo : string := "v4-8".

Definition topology_devices : result (list Device) :=
  if String.eqb topo "v4-8" then
    ret (get_topology_desc
           {| platform := "tpu";
              topology_name := "v4:2x2x1";
              chip_config_name := "megacore";
              chips_per_host_bounds := [2; 2; 1]%Z;
              num_slices := 1 |})
  else if String.eqb topo "v4-16" then
    ret (get_topology_desc
           {| platform := "tpu";
              topology_name := "v4:2x2x2";
              chip_config_name := "megacore";
              chips_per_host_bounds := [2; 2; 2]%Z;
              num_slices := 1 |})
  else raise (NameError "topology_devices").

(** The two assertions that follow the device list. *)
Definition check_devices (devices : list Device) : result unit :=
  let num_devices := len devices in
  let* _ := py_assert (bool_decide (1 < len devices)%Z)
              "You must have at least two devices" in
  (* Assert that we have correct inputs of sharding that fit the number of chips *)
  py_assert
    (bool_decide
       (int64_mul (np_product dcn_parallelism) (np_product ici_parallelism)
        = num_devices))
    ("Number of devices " +:+ pretty num_devices
     +:+ "       does not match the product of the parallelism "
     +:+ pretty (int64_mul (np_product dcn_parallelism)
                   (np_product ici_parallelism))).

(** [hasattr(devices[0], 'slice_index')] *)
Definition multi_slice_env (devices : list Device) : result bool :=
  let* d := tuple_get devices 0 in
  ret (bool_decide (is_Some (slice_index d))).

(** Create device mesh *)
Definition create_devices_array (devices : list Device) : result DeviceArray :=
  let* multi := multi_slice_env devices in
  if (multi : bool) then
    let* m := max_slice_index jax_devices in
    if bool_decide (dcn_data_parallelism args = 1 + m)%Z then
      create_hybrid_device_mesh ici_parallelism dcn_parallelism devices
    else
      (* the message of the failed assertion *)
      let* d0 := tuple_get jax_devices 0 in
      raise (AssertionError
               ("Number of slices given "
                +:+ pretty (dcn_data_parallelism args)
                +:+ "         does not match the number fetched from jax devices "
                +:+ device_str d0))
  else
    create_device_mesh ici_parallelism devices.

(** The script from the device list to the mesh. *)
Definition build_mesh (devices : list Device) : result (Mesh DeviceArray) :=
  let* _ := check_devices devices in
  let* devices_array := create_devices_array devices in
  ret {| mesh_devices := devices_array;
         axis_names := ["data"; "fsdp"; "tensor"] |}.

(** *** Sizes *)

Definition BATCH (devices : list Device) : Z := (len devices * batch_size args)%Z.
Definition D_EMB : Z := embedding_dimension args.
Definition D_FF : Z := (4 * D_EMB)%Z.
Definition NUM_LAYERS : Z := num_layers args.

Definition parameters : Z := (2 * D_FF * D_EMB * NUM_LAYERS)%Z.
Definition parameter_bytes : Z := (2 * parameters)%Z.
Definition activation_bytes (devices : list Device) : Z :=
  (2 * (BATCH devices * (D_FF + D_EMB)) * NUM_LAYERS)%Z.
Definition memory_bytes (devices : list Device) : Z :=
  (parameter_bytes + activation_bytes devices)%Z.

(** *** Synthetic parameters and data *)

Definition gen_layer (random_key : Key) : result Layer :=
  let keys := random_split random_key 4 in
  let* k0 := tuple_get keys 0 in
  let* n0 := random_normal k0 [D_FF; D_EMB] bfloat16 in
  let* k1 := tuple_get keys 1 in
  let* n1 := random_normal k1 [D_FF; D_EMB] bfloat16 in
  ret (<["FF2EMB" := scalar_mul (1 # 10000) n1]>
         (<["EMB2FF" := scalar_mul (1 # 10000) n0]> ∅)).

(** What a layer built by [gen_layer] looks like: the two weights,
    each of shape [(4 * embedding_dimension, embedding_dimension)] and
    dtype bfloat16. *)
Definition generated_layer (layer : Layer) : Prop :=
  dom layer = ({["EMB2FF"; "FF2EMB"]} : gset string) /\
  forall (k : string) (a : Array),
    layer !! k = Some a ->
    shape a = [(4 * embedding_dimension args)%Z; embedding_dimension args]
    /\ dtype_of a = bfloat16.

(** The loop of [gen_layers]: [n] iterations remain. *)
Fixpoint gen_layers_loop (n : nat) (random_key : Key) (layers : list Layer)
  : result (list Layer) :=
  match n with
  | O => ret layers
  | S n' =>
      match random_split random_key 2 with
      | [random_key'; sub_key] =>
          let* layer := gen_layer sub_key in
          gen_layers_loop n' random_key' (layers ++ [layer])
      | _ => raise ValueError
      end
  end.

Definition gen_layers (random_key : Key) : result (list Layer) :=
  let layers := [] in
  gen_layers_loop (Z.to_nat NUM_LAYERS) random_key layers.

Definition gen_data (devices : list Device) (random_key : Key) : result Array :=
  random_uniform random_key [BATCH devices; D_EMB] bfloat16.

(** *** Ahead-of-time compilation *)

Local Abbreviation machine' := (machine Bytes St).

(** [xaot_save]: the serialized executable is written to
    [pickle_filename], opened with mode ["wb"]; of the five results the
    script keeps the first, the jitted function.  The messages under
    [verbose] are left out. *)
Definition xaot_save (func : script_function) (mesh : Mesh DeviceArray)
    (pickle_filename : string) (example_args : list example_arg)
    (in_shardings : option (list PartitionSpec))
    (out_shardings : option PartitionSpec) (verbose : bool)
  : prog machine' script_function :=
  let! serialized :=
    lift (pickled_executable
            {| xr_func := func;
               xr_mesh := mesh;
               xr_example_args := example_args;
               xr_in_shardings := in_shardings;
               xr_out_shardings := out_shardings |}) in
  fun m =>
    (inr func,
     {| files := <[pickle_filename := serialized]> (files m);
        outside := outside m |}).

Definition save_xaot : bool := true.

(** The jitted functions the rest of the script uses. *)
Record jitted : Type := mkJitted {
  pjit_gen_data : script_function;
  pjit_gen_layers : script_function;
  pjit_func : script_function
}.

(** Running a jitted function of the script. *)
Definition run_gen_data (f : script_function) (devices : list Device) (key : Key)
  : result Array :=
  match f with
  | Gen_data => gen_data devices key
  | _ => raise TypeError
  end.

Definition run_gen_layers (f : script_function) (key : Key)
  : result (list Layer) :=
  match f with
  | Gen_layers => gen_layers key
  | _ => raise TypeError
  end.

(** The block under [if save_xaot:]. *)
Definition save_stage (use_mesh : Mesh DeviceArray) (devices : list Device)
    (key : Key) : prog machine' jitted :=
  let fake_key := ShapedKey in
  if save_xaot then
    let! pjit_gen_data :=
      xaot_save Gen_data use_mesh "data_sharding.pkl" [fake_key]
        None (Some data_sharding) false in
    let! pjit_gen_layers :=
      xaot_save Gen_layers use_mesh "layers_sharding.pkl" [fake_key]
        None (Some parameter_sharding) false in
    (* Sadness we need to create example training_step args using the previous jits *)
    let! presharded_X := lift (run_gen_data pjit_gen_data devices key) in
    let! presharded_layers := lift (run_gen_layers pjit_gen_layers key) in
    let! pjit_func :=
      xaot_save Training_step use_mesh "layers_sharding.pkl"
        [ArgArray presharded_X; ArgLayers presharded_layers]
        (Some [data_sharding; parameter_sharding])
        (Some parameter_sharding) true in
    pret {| pjit_gen_data := pjit_gen_data;
            pjit_gen_layers := pjit_gen_layers;
            pjit_func := pjit_func |}
  else
    lift (raise (NameError "pjit_gen_data")).

(** *** Timing *)

Definition activate_profiler (profiler_path : string) (st : St) : St :=
  if decide (profiler_path = "") then st else start_trace profiler_path st.

Definition deactivate_profiler (profiler_path : string) (st : St) : St :=
  if decide (profiler_path = "") then st else stop_trace st.

(** A change of the outside world, as a step on the whole state. *)
Definition on_outside (f : St -> St) : machine' -> machine' :=
  fun m => {| files := files m; outside := f (outside m) |}.

Definition machine_now : machine' -> Z * machine' :=
  fun m =>
    let '(t, st) := now (outside m) in
    (t, {| files := files m; outside := st |}).

(** [parameters * 6 * BATCH / 10**12 / len(devices)] *)
Definition TFLOPs_per_device (devices : list Device) : result F :=
  let* x := truediv_int_int (parameters * 6 * BATCH devices) (10 ^ 12) in
  truediv_float_int x (len devices).

(** The last block of the script, under [with use_mesh:]. *)
Definition benchmark (j : jitted) (devices : list Device) (key : Key)
  : prog machine' (report F) :=
  let! presharded_X := lift (run_gen_data (pjit_gen_data j) devices key) in
  let! presharded_layers := lift (run_gen_layers (pjit_gen_layers j) key) in
  let! _ := (fun m => (inr tt, on_outside (activate_profiler (profiler_path args)) m)) in
  let! tflops := lift (TFLOPs_per_device devices) in
  let! time :=
    simple_timeit machine_now
      (on_outside (run_jitted (pjit_func j) presharded_X presharded_layers))
      None None in
  let! per_second := lift (truediv_float_float tflops time) in
  let! _ := (fun m => (inr tt, on_outside (deactivate_profiler (profiler_path args)) m)) in
  pret {| report_time := time;
          report_TFLOP := tflops;
          report_TFLOP_per_s := per_second |}.

(** The whole script. *)
Definition script : prog machine' (report F) :=
  let! devices := lift topology_devices in
  let! mesh := lift (build_mesh devices) in
  let use_mesh :=
    {| mesh_devices := mesh_devices mesh; axis_names := axis_names mesh |} in
  let key := PRNGKey 0 in
  let! j := save_stage use_mesh devices key in
  benchmark j devices key.

End Script.

End XaotShardings.

(* ================================================================= *)
(** ** A small interpretation of the interfaces

    Arrays that carry only shape and dtype, natural numbers as keys, a
    clock in microseconds as the outside world: enough to run every
    definition above on concrete inputs. *)

Module Model.

Import XaotShardings.

Record shaped : Type := mkShaped {
  s_shape : list Z;
  s_dtype : dtype
}.

Definition shaped_random (k : nat) (shp : list Z) (dt : dtype)
  : result shaped :=
  if forallb (Z.leb 0) shp then inr (mkShaped shp dt) else inl ValueError.

Definition shaped_matmul (a b : shaped) : result shaped :=
  match s_shape a, s_shape b with
  | [m; k], [k'; n] =>
      if decide (k = k') then inr (mkShaped [m; n] (s_dtype a))
      else inl TypeError
  | _, _ => inl TypeError
  end.

(** The gradient of a sum of outputs has, leaf by leaf, the shape and
    dtype of the parameters: on [shaped] it is the parameter tree. *)
Definition shaped_value_and_grad
    (f : shaped -> list (gmap string shaped) -> result shaped)
    (x : shaped) (ls : list (gmap string shaped))
  : result (shaped * list (list (gmap string shaped))) :=
  match f x ls with
  | inl e => inl e
  | inr v => inr (v, [ls])
  end.

#[export] Instance shaped_jax : Jax shaped nat := {|
  shape := s_shape;
  dtype_of := s_dtype;
  PRNGKey := Z.to_nat;
  random_split := fun k num => map (fun i => (k * num + i + 1)%nat) (seq 0 num);
  random_normal := shaped_random;
  random_uniform := shaped_random;
  scalar_mul := fun _ a => a;
  array_sub := fun a _ => a;
  matmul := shaped_matmul;
  transpose := fun a => mkShaped (reverse (s_shape a)) (s_dtype a);
  sigmoid := fun a => a;
  jnp_sum := fun a => mkShaped [] (s_dtype a);
  value_and_grad := shaped_value_and_grad
|}.

(** Four devices of one slice, without a [slice_index]. *)
Definition four_devices : list Device :=
  map (fun i => {| device_id := i; slice_index := None;
                   device_str := "TpuDevice" |}) (seq 0 4).


(** The default command line with a small network. *)
Definition small_args : Args :=
  {| profiler_path := "";
     embedding_dimension := 2;
     batch_size := 3;
     num_layers := 2;
     dcn_data_parallelism := 1;
     dcn_fsdp_parallelism := 1;
     dcn_tensor_parallelism := 1;
     ici_data_parallelism := 1;
     ici_fsdp_parallelism := 4;
     ici_tensor_parallelism := 1 |}.

(** The clock shows the state; a run of the training step takes two
    seconds. *)
Definition clock (st : Z) : Z * Z := (st, st).
Definition two_seconds (st : Z) : Z := (st + 2000000)%Z.

(** The serialized executables, told apart by a number. *)
Definition numbered_executable {A D} (r : @xaot_request A D) : result nat :=
  inr (match xr_func r with
       | Gen_data => 1
       | Gen_layers => 2
       | Training_step => 3
       end)%nat.


Definition empty_machine : machine nat Z :=
  {| files := ∅; outside := 0%Z |}.

(** Activations for four devices and one layer of the small network. *)
Definition small_act : shaped := mkShaped [12; 2]%Z bfloat16.
Definition small_layer : gmap string shaped :=
  <["FF2EMB" := mkShaped [8; 2]%Z bfloat16]>
    (<["EMB2FF" := mkShaped [8; 2]%Z bfloat16]> ∅).

End Model.

(* ================================================================= *)
(** ** Reference definitions for further statements *)

Module Reference.

Import XaotShardings.

(** The first result in order that is an exception, or all values. *)
Fixpoint collect {A} (rs : list (result A)) : result (list A) :=
  match rs with
  | [] => inr []
  | inl e :: _ => inl e
  | inr a :: rs' =>
      match collect rs' with
      | inl e => inl e
      | inr l => inr (a :: l)
      end
  end.

Section Keys.
Context {Array Key : Type} `{Jax Array Key}.

(** The keys [gen_layers] hands to [gen_layer]: the second key of each
    split, the first one being split again. *)
Fixpoint sub_keys (n : nat) (random_key : Key) : list Key :=
  match n with
  | O => []
  | S n' =>
      match random_split random_key 2 with
      | [random_key'; sub_key] => sub_key :: sub_keys n' random_key'
      | _ => []
      end
  end.
End Keys.

(** An effect on the world that is not logged. *)
Definition unlogged {St} (g : St -> St) : St * list event -> St * list event :=
  fun '(st, log) => (g st, log).

Section Requests.
Context {Array DeviceArray : Type}.

(** The three requests the script makes of the compiler. *)
Definition data_request (use_mesh : Mesh DeviceArray)
  : @xaot_request Array DeviceArray :=
  {| xr_func := Gen_data;
     xr_mesh := use_mesh;
     xr_example_args := [ShapedKey];
     xr_in_shardings := None;
     xr_out_shardings := Some data_sharding |}.

Definition layers_request (use_mesh : Mesh DeviceArray)
  : @xaot_request Array DeviceArray :=
  {| xr_func := Gen_layers;
     xr_mesh := use_mesh;
     xr_example_args := [ShapedKey];
     xr_in_shardings := None;
     xr_out_shardings := Some parameter_sharding |}.

Definition step_request (use_mesh : Mesh DeviceArray)
    (presharded_X : Array) (presharded_layers : list (gmap string Array))
  : @xaot_request Array DeviceArray :=
  {| xr_func := Training_step;
     xr_mesh := use_mesh;
     xr_example_args := [ArgArray presharded_X; ArgLayers presharded_layers];
     xr_in_shardings := Some [data_sharding; parameter_sharding];
     xr_out_shardings := Some parameter_sharding |}.
End Requests.

(** Total of a list of integers. *)
Definition total (l : list Z) : Z := foldr Z.add 0%Z l.

(** Product of a list of integers, without wrap-around. *)
Definition product (l : list Z) : Z := foldr Z.mul 1%Z l.

(** Further concrete inputs on the small interpretation. *)

(** A training step too fast for the clock. *)
Definition instant (st : Z) : Z := st.

(** Four devices in two slices. *)
Definition sliced_devices : list Device :=
  [ {| device_id := 0; slice_index := Some 0%Z; device_str := "TpuDevice" |};
    {| device_id := 1; slice_index := Some 0%Z; device_str := "TpuDevice" |};
    {| device_id := 2; slice_index := Some 1%Z; device_str := "TpuDevice" |};
    {| device_id := 3; slice_index := Some 1%Z; device_str := "TpuDevice" |} ].

(** Two slices of two devices each. *)
Definition two_slice_args : Args :=
  {| profiler_path := "";
     embedding_dimension := 2;
     batch_size := 3;
     num_layers := 2;
     dcn_data_parallelism := 2;
     dcn_fsdp_parallelism := 1;
     dcn_tensor_parallelism := 1;
     ici_data_parallelism := 1;
     ici_fsdp_parallelism := 2;
     ici_tensor_parallelism := 1 |}.




(** The small command line without layers. *)
Definition no_layers_args : Args :=
  {| profiler_path := "";
     embedding_dimension := 2;
     batch_size := 3;
     num_layers := 0;
     dcn_data_parallelism := 1;
     dcn_fsdp_parallelism := 1;
     dcn_tensor_parallelism := 1;
     ici_data_parallelism := 1;
     ici_fsdp_parallelism := 4;
     ici_tensor_parallelism := 1 |}.

(** A compiler that fails on the training step. *)
Definition step_does_not_compile {A D} (r : @xaot_request A D) : result nat :=
  match xr_func r with
  | Gen_data => inr 1%nat
  | Gen_layers => inr 2%nat
  | Training_step => inl ValueError
  end.

(** The jitted functions as the script has them after the saves. *)
Definition script_jitted : jitted :=
  {| pjit_gen_data := Gen_data;
     pjit_gen_layers := Gen_layers;
     pjit_func := Training_step |}.

(** A mesh of the four devices. *)
Definition four_mesh : Mesh (list Device) :=
  {| mesh_devices := Model.four_devices;
     axis_names := ["data"; "fsdp"; "tensor"] |}.

(** A layer that lacks ["EMB2FF"]. *)
Definition half_layer : gmap string Model.shaped :=
  <["FF2EMB" := Model.mkShaped [8; 2]%Z bfloat16]> ∅.

(** The topology the script asks for, [topo] being ['v4-8']. *)
Definition v4_8 : topology_request :=
  {| platform := "tpu";
     topology_name := "v4:2x2x1";
     chip_config_name := "megacore";
     chips_per_host_bounds := [2; 2; 1]%Z;
     num_slices := 1 |}.

End Reference.

(* ================================================================= *)
(** * Properties *)

Import MaxengineConfig MaxengineServer XaotShardings.

Local Open Scope list_scope.

(** ** The server configuration *)

Section ServerConfigFacts.
Context {Config Devices Engine : Type}.
Variable MaxEngine : Config -> Engine.
Variable device_count : nat.
Variable get_devices : Devices.

Example interleaved_slice_of_8_devices :
  "tpu=" +:+ pretty 8%nat = "tpu=8".
Proof. reflexivity. Qed.

Lemma get_server_config_known (cfg : Config) :
  get_server_config MaxEngine device_count "MaxtextInterleavedServer" cfg
  = inr {| prefill_slices := [];
           generate_slices := [];
           interleaved_slices := ["tpu=" +:+ pretty device_count];
           prefill_engine_create_fns := [];
           generate_engine_create_fns := [];
           interleaved_engine_create_fns :=
             [partial (create_maxengine (Devices := Devices) MaxEngine) cfg] |}.
Proof. reflexivity. Qed.

Lemma get_server_config_unknown (config_str : string) (cfg : Config) :
  config_str <> "MaxtextInterleavedServer" ->
  get_server_config (Devices := Devices) MaxEngine device_count config_str cfg
  = inl NotImplementedError.
Proof.
  intros Hne. unfold get_server_config.
  destruct (String.eqb_spec config_str "MaxtextInterleavedServer") as [->|_].
  - contradiction.
  - reflexivity.
Qed.

(** C1. For every config, [get_server_config] on
    ['MaxtextInterleavedServer'] returns a server configuration whose
    prefill and generate slices and engine-creation tuples are empty,
    whose interleaved slices are the one string ['tpu=' + str(device
    count)], and whose interleaved engine-creation tuple holds exactly
    the partial application of [create_maxengine] to that config (which
    builds the engine from the config whatever devices it is given);
    [main] asks for exactly this configuration and starts the server
    with it. *)
Theorem interleaved_server_wiring (cfg : Config) :
  exists sc : ServerConfig,
    get_server_config MaxEngine device_count "MaxtextInterleavedServer" cfg
      = inr sc /\
    prefill_slices sc = [] /\
    generate_slices sc = [] /\
    prefill_engine_create_fns sc = [] /\
    generate_engine_create_fns sc = [] /\
    interleaved_slices sc = ["tpu=" +:+ pretty device_count] /\
    interleaved_engine_create_fns sc
      = [partial (create_maxengine MaxEngine) cfg] /\
    length (interleaved_engine_create_fns sc) = 1%nat /\
    (forall d : Devices,
        partial (create_maxengine MaxEngine) cfg d = MaxEngine cfg) /\
    main MaxEngine device_count get_devices cfg
      = inr {| threads := 128; port := 9000;
               config := sc; devices := get_devices |}.
Proof.
  eexists. split; [apply get_server_config_known|].
  cbn. repeat split; reflexivity.
Qed.

(** C2. [get_server_config] returns a configuration exactly when the
    name is ['MaxtextInterleavedServer']; on every other name it raises
    [NotImplementedError] and yields no configuration. *)
Theorem get_server_config_selects (config_str : string) (cfg : Config) :
  (returns (get_server_config (Devices := Devices)
              MaxEngine device_count config_str cfg)
   <-> config_str = "MaxtextInterleavedServer") /\
  (config_str = "MaxtextInterleavedServer" \/
   get_server_config (Devices := Devices)
     MaxEngine device_count config_str cfg = inl NotImplementedError).
Proof.
  destruct (decide (config_str = "MaxtextInterleavedServer")) as [->|Hne].
  - split; [|by left]. split; [done|]. intros _.
    rewrite get_server_config_known. by eexists.
  - pose proof (get_server_config_unknown config_str cfg Hne) as Hraise.
    split; [|by right]. split; [|done].
    intros [sc Hsc]. rewrite Hraise in Hsc. discriminate.
Qed.

(** C9. [create_maxengine] does not depend on its [devices] argument:
    for any two values the engine is the same, the one built from the
    config alone. *)
Theorem create_maxengine_ignores_devices (d1 d2 : Devices) (cfg : Config) :
  create_maxengine MaxEngine d1 cfg = create_maxengine MaxEngine d2 cfg /\
  create_maxengine MaxEngine d1 cfg = MaxEngine cfg.
Proof. split; reflexivity. Qed.

End ServerConfigFacts.

(** ** simple_timeit *)

Section TimeitFacts.
Context {St F : Type} `{FloatOps F}.
Variable now : St -> Z * St.

(** The loop appends, in order, the durations of its timed calls. *)
Lemma timing_loop_durations (f : St -> St) (n : nat) :
  forall (outcomes : list F) (st : St),
    timing_loop now f n outcomes st
    = (outcomes ++ durations now f n st, after_timed_calls now f n st).
Proof.
  induction n as [|n IH]; intros outcomes st; simpl.
  - by rewrite app_nil_r.
  - unfold timed_call.
    destruct (now st) as [s st1]; simpl.
    destruct (now (f st1)) as [e st2]; simpl.
    rewrite IH. by rewrite <- app_assoc.
Qed.

Lemma durations_length (f : St -> St) (n : nat) :
  forall st, length (durations now f n st) = n.
Proof.
  induction n as [|n IH]; intros st; simpl; [done|].
  destruct (timed_call now f st) as [d st']. simpl. by rewrite IH.
Qed.

(** What [simple_timeit] returns, in terms of the durations. *)
Lemma simple_timeit_result (f : St -> St) (tries : option Z)
    (verbose : option bool) (st : St) :
  fst (simple_timeit now f tries verbose st)
  = match durations now f (Z.to_nat (default 5%Z tries)) (f st) with
    | [] => inl ZeroDivisionError
    | ds => inr (mean ds)
    end.
Proof.
  unfold simple_timeit. rewrite timing_loop_durations. simpl.
  destruct (durations now f (Z.to_nat (default 5%Z tries)) (f st))
    as [|d ds] eqn:E; [reflexivity|].
  unfold truediv_float_int, mean.
  destruct (decide (Z.of_nat (length (d :: ds)) = 0%Z)) as [Hz|_];
    [simpl in Hz; lia | reflexivity].
Qed.

(** C4. For every [f] and every [tries >= 1], [simple_timeit] returns
    the mean (sum divided by count) of exactly [tries] durations, each
    the wall-clock difference around one call of [f]; when [tries] is
    left out it is 5. *)
Theorem simple_timeit_mean (f : St -> St) (tries : Z)
    (verbose : option bool) (st : St) :
  (1 <= tries)%Z ->
  let ds := durations now f (Z.to_nat tries) (f st) in
  Z.of_nat (length ds) = tries /\
  fst (simple_timeit now f (Some tries) verbose st) = inr (mean ds) /\
  mean ds = fdiv (fsum ds) (of_int (Z.of_nat (length ds))) /\
  simple_timeit now f None verbose st
  = simple_timeit now f (Some 5%Z) verbose st.
Proof.
  intros Htries ds.
  assert (Hlen : length ds = Z.to_nat tries) by apply durations_length.
  split; [lia|]. split; [|split; reflexivity].
  rewrite simple_timeit_result. simpl. fold ds.
  destruct ds as [|d ds']; [simpl in Hlen; lia | reflexivity].
Qed.

(** With calls and clock readings logged, the loop adds one call
    between two readings per iteration, and records their difference. *)
Lemma timing_loop_logged (f : St -> St) (n : nat) :
  forall (outcomes : list F) (st : St) (log : list event),
  exists (readings : list (Z * Z)) (st' : St),
    length readings = n /\
    timing_loop (logged_now now) (logged_call f) n outcomes (st, log)
    = (outcomes ++ map (fun r => total_seconds (snd r - fst r)) readings,
       (st', reverse (flat_map timed_events readings) ++ log)).
Proof.
  induction n as [|n IH]; intros outcomes st log.
  - exists [], st. simpl. by rewrite app_nil_r.
  - simpl. destruct (now st) as [s st1] eqn:E1. simpl.
    destruct (now (f st1)) as [e st2] eqn:E2. simpl.
    destruct (IH (outcomes ++ [total_seconds (e - s)]) st2
                (EvNow e :: EvCall :: EvNow s :: log))
      as (readings & st' & Hlen & Hrun).
    exists ((s, e) :: readings), st'. split; [simpl; lia|].
    rewrite Hrun.
    change (flat_map timed_events ((s, e) :: readings))
      with ([EvNow s; EvCall; EvNow e] ++ flat_map timed_events readings).
    rewrite reverse_app. simpl. rewrite <- !app_assoc. reflexivity.
Qed.

Lemma count_calls_timed (readings : list (Z * Z)) :
  length (filter (fun e => is_call e = true) (flat_map timed_events readings))
  = length readings.
Proof.
  induction readings as [|r readings IH]; [done|].
  change (flat_map timed_events (r :: readings))
    with (EvNow (fst r) :: EvCall :: EvNow (snd r)
          :: flat_map timed_events readings).
  rewrite filter_cons_False by (simpl; discriminate).
  rewrite filter_cons_True by done.
  rewrite filter_cons_False by (simpl; discriminate).
  simpl. by rewrite IH.
Qed.

(** On the clock that advances only inside [f], the timed calls are
    the calls number [k], [k+1], ... and each recorded duration is the
    duration of its call. *)
Lemma clock_durations (dur : nat -> Z) (n : nat) :
  forall (t : Z) (k : nat),
    durations clock_now (clock_call dur) n (t, k)
    = map (fun i => total_seconds (dur i)) (seq k n).
Proof.
  induction n as [|n IH]; intros t k; simpl; [done|].
  rewrite IH. f_equal. f_equal. lia.
Qed.

(** The duration function with the duration of the first call, the
    warm-up, replaced by [d0]. *)
Lemma clock_durations_warm_up (dur : nat -> Z) (d0 : Z) (n : nat) (t t' : Z) :
  durations clock_now
    (clock_call (fun k => if decide (k = 0%nat) then d0 else dur k)) n (t', 1%nat)
  = durations (F := F) clock_now (clock_call dur) n (t, 1%nat).
Proof.
  rewrite !clock_durations. apply map_ext_in. intros i Hi.
  apply in_seq in Hi. destruct (decide (i = 0%nat)); [lia|done].
Qed.

End TimeitFacts.

Section TimeitCallsFacts.
Context {St F : Type} `{FloatOps F}.
Variable now : St -> Z * St.

(** C10. [simple_timeit(f, tries)] calls [f] exactly [tries + 1] times.
    The first call, the warm-up, happens before the clock is read for
    the first time; each of the [tries] later calls lies between two
    readings, and the average is computed from these readings alone.
    On a clock that advances only while [f] runs, the result is the
    same whatever the warm-up call took. *)
Theorem simple_timeit_call_count (f : St -> St) (tries : Z)
    (verbose : option bool) (st : St) :
  (0 <= tries)%Z ->
  let run :=
    simple_timeit (F := F) (logged_now now) (logged_call f)
      (Some tries) verbose (st, []) in
  (exists readings : list (Z * Z),
      Z.of_nat (length readings) = tries /\
      reverse (snd (snd run)) = EvCall :: flat_map timed_events readings /\
      Z.of_nat (length (filter (fun e => is_call e = true) (snd (snd run))))
      = (tries + 1)%Z /\
      fst run
      = match readings with
        | [] => inl ZeroDivisionError
        | _ => inr (mean (map (fun r => total_seconds (snd r - fst r)) readings))
        end) /\
  (forall (dur : nat -> Z) (d0 t0 : Z),
      fst (simple_timeit (F := F) clock_now
             (clock_call (fun k => if decide (k = 0%nat) then d0 else dur k))
             (Some tries) verbose (t0, 0%nat))
      = fst (simple_timeit (F := F) clock_now (clock_call dur)
               (Some tries) verbose (t0, 0%nat))).
Proof.
  intros Htries run. split.
  - subst run. unfold simple_timeit. simpl.
    destruct (timing_loop_logged now f (Z.to_nat tries) [] (f st) [EvCall])
      as (readings & st' & Hlen & Hrun).
    rewrite Hrun. simpl.
    exists readings. split; [lia|]. split.
    { rewrite reverse_app, reverse_involutive. reflexivity. }
    split.
    { rewrite filter_app, length_app, filter_reverse, length_reverse.
      rewrite count_calls_timed, Hlen. simpl. lia. }
    destruct readings as [|r rs]; [reflexivity|].
    simpl. unfold truediv_float_int, mean.
    destruct (decide (Z.of_nat _ = 0%Z)) as [Hz|_];
      [simpl in Hz; lia | reflexivity].
  - intros dur d0 t0. rewrite !simple_timeit_result. simpl.
    destruct (decide (0%nat = 0%nat)) as [_|?]; [|done].
    by rewrite (clock_durations_warm_up dur d0 _ (t0 + dur 0%nat)%Z).
Qed.

End TimeitCallsFacts.

(** ** The preconditions of the mesh *)

Section MeshFacts.
Context {DeviceArray : Type}.
Variable args : Args.
Variable jax_devices : list Device.
Variable create_device_mesh : list Z -> list Device -> result DeviceArray.
Variable create_hybrid_device_mesh :
  list Z -> list Z -> list Device -> result DeviceArray.

(** [int64] picks the representative of its argument modulo [2^64]
    in the signed range. *)
Lemma int64_range (z : Z) : (- 2 ^ 63 <= int64 z < 2 ^ 63)%Z.
Proof.
  unfold int64.
  pose proof (Z.mod_pos_bound (z + 2 ^ 63) (2 ^ 64) eq_refl). lia.
Qed.

Lemma int64_small (z : Z) : (- 2 ^ 63 <= z < 2 ^ 63)%Z -> int64 z = z.
Proof.
  intros Hz. unfold int64. rewrite Z.mod_small by lia. lia.
Qed.

Lemma int64_congr (x y : Z) :
  (x mod 2 ^ 64 = y mod 2 ^ 64)%Z -> int64 x = int64 y.
Proof.
  intros Hxy. unfold int64. f_equal.
  rewrite <- (Zplus_mod_idemp_l x), <- (Zplus_mod_idemp_l y).
  by rewrite Hxy.
Qed.

Lemma int64_mod (z : Z) : (int64 z mod 2 ^ 64 = z mod 2 ^ 64)%Z.
Proof.
  unfold int64.
  rewrite Zminus_mod, Z.mod_mod by discriminate.
  rewrite <- Zminus_mod. f_equal. lia.
Qed.

Lemma int64_mul_l (x y : Z) : int64 (int64 x * y) = int64 (x * y).
Proof.
  apply int64_congr.
  rewrite <- (Zmult_mod_idemp_l (int64 x)), int64_mod.
  by rewrite Zmult_mod_idemp_l.
Qed.

Lemma int64_mul_r (x y : Z) : int64 (x * int64 y) = int64 (x * y).
Proof. rewrite (Z.mul_comm x), int64_mul_l. f_equal. lia. Qed.

(** The wrapped product is the product of the integers, wrapped once. *)
Lemma np_product_wraps (l : list Z) :
  np_product l = int64 (Reference.product l).
Proof.
  unfold np_product.
  assert (Hgen : forall acc : Z,
             foldl (fun a x => int64 (a * x)) (int64 acc) l
             = int64 (acc * Reference.product l)).
  { induction l as [|x l IH]; intros acc; simpl.
    - f_equal. lia.
    - rewrite int64_mul_l, IH. f_equal. lia. }
  specialize (Hgen 1%Z). rewrite (int64_small 1) in Hgen by lia.
  rewrite Hgen. f_equal. lia.
Qed.

(** What the second assertion compares with the device count: the
    product of the six degrees, wrapped. *)
Lemma parallelism_product :
  int64_mul (np_product (dcn_parallelism args))
    (np_product (ici_parallelism args))
  = int64 ((dcn_data_parallelism args * dcn_fsdp_parallelism args
            * dcn_tensor_parallelism args)
           * (ici_data_parallelism args * ici_fsdp_parallelism args
              * ici_tensor_parallelism args)).
Proof.
  unfold int64_mul. rewrite !np_product_wraps, int64_mul_l, int64_mul_r.
  unfold dcn_parallelism, ici_parallelism, Reference.product. simpl.
  f_equal. lia.
Qed.

Lemma check_devices_few (devices : list Device) :
  ~ (1 < len devices)%Z ->
  check_devices args devices
  = inl (AssertionError "You must have at least two devices").
Proof.
  intros Hfew. unfold check_devices.
  rewrite bool_decide_eq_false_2 by done. reflexivity.
Qed.

Lemma check_devices_mismatch (devices : list Device) :
  (1 < len devices)%Z ->
  int64_mul (np_product (dcn_parallelism args))
    (np_product (ici_parallelism args))
    <> len devices ->
  check_devices args devices
  = inl (AssertionError
           ("Number of devices " +:+ pretty (len devices)
            +:+ "       does not match the product of the parallelism "
            +:+ pretty (int64_mul (np_product (dcn_parallelism args))
                          (np_product (ici_parallelism args))))).
Proof.
  intros Hmany Hne. unfold check_devices.
  rewrite bool_decide_eq_true_2 by done. simpl.
  rewrite bool_decide_eq_false_2 by done. reflexivity.
Qed.

Lemma check_devices_pass (devices : list Device) :
  (1 < len devices)%Z ->
  int64_mul (np_product (dcn_parallelism args))
    (np_product (ici_parallelism args))
    = len devices ->
  check_devices args devices = inr tt.
Proof.
  intros Hmany Heq. unfold check_devices.
  rewrite bool_decide_eq_true_2 by done. simpl.
  rewrite bool_decide_eq_true_2 by done. reflexivity.
Qed.

(** The two assertions pass exactly when there are at least two
    devices and the wrapped product is their number. *)
Lemma check_devices_wrapped (devices : list Device) :
  check_devices args devices = inr tt
  <-> (2 <= len devices)%Z /\
      int64 ((dcn_data_parallelism args * dcn_fsdp_parallelism args
              * dcn_tensor_parallelism args)
             * (ici_data_parallelism args * ici_fsdp_parallelism args
                * ici_tensor_parallelism args))
      = len devices.
Proof.
  rewrite <- parallelism_product. split.
  - intros Hok.
    destruct (decide (1 < len devices)%Z) as [Hmany|Hfew];
      [|rewrite check_devices_few in Hok by done; discriminate].
    destruct (decide (int64_mul (np_product (dcn_parallelism args))
                        (np_product (ici_parallelism args)) = len devices))
      as [Heq|Hne]; [split; [lia|done]|].
    rewrite check_devices_mismatch in Hok by done. discriminate.
  - intros [Hmany Heq]. apply check_devices_pass; [lia|done].
Qed.

End MeshFacts.


(** ** The throughput figure *)

Section ThroughputFacts.
Variable args : Args.

Local Open Scope Q_scope.



End ThroughputFacts.



(** ** The files the script writes *)

Section SaveFacts.
Context {Array Key F St DeviceArray Bytes : Type}.
Context `{Jax Array Key} `{FloatOps F}.
Variable args : Args.
Variable get_topology_desc : topology_request -> list Device.
Variable jax_devices : list Device.
Variable create_device_mesh : list Z -> list Device -> result DeviceArray.
Variable create_hybrid_device_mesh :
  list Z -> list Z -> list Device -> result DeviceArray.
Variable pickled_executable :
  xaot_request (Array := Array) (DeviceArray := DeviceArray) -> result Bytes.
Variable now : St -> Z * St.
Variable start_trace : string -> St -> St.
Variable stop_trace : St -> St.
Variable run_jitted :
  script_function -> Array -> list (gmap string Array) -> St -> St.







End SaveFacts.

(** ** The training step *)

Section TrainingFacts.
Context {Array Key : Type} `{JaxLaws Array Key}.

Local Abbreviation Layer := (gmap string Array).

Lemma dict_map2_same_keys (f : Array -> Array -> Array) (d1 d2 : Layer) :
  dom d1 = dom d2 -> dict_map2 f d1 d2 = inr (map_zip_with f d1 d2).
Proof. intros Hdom. unfold dict_map2. by rewrite decide_True. Qed.

Lemma tree_map2_same_structure (f : Array -> Array -> Array) (t1 t2 : list Layer) :
  Forall2 (fun d1 d2 => dom d1 = dom d2) t1 t2 ->
  tree_map2 f t1 t2 = inr (zip_with (map_zip_with f) t1 t2).
Proof.
  induction 1 as [|d1 d2 t1 t2 Hdom _ IH]; simpl; [done|].
  rewrite dict_map2_same_keys by done. simpl. by rewrite IH.
Qed.

(** A forward pass that returns has found both weights in every
    layer. *)
Lemma multiply_layer_keys (x : Array) (layer : Layer) :
  returns (multiply_layer x layer) ->
  "EMB2FF" ∈ dom layer /\ "FF2EMB" ∈ dom layer.
Proof.
  intros [y Hy]. unfold multiply_layer, getitem in Hy.
  destruct (layer !! "EMB2FF") as [w1|] eqn:E1; [|discriminate].
  simpl in Hy. destruct (matmul x (transpose w1)) as [?|m1]; [discriminate|].
  simpl in Hy.
  destruct (layer !! "FF2EMB") as [w2|] eqn:E2; [|discriminate].
  split; apply elem_of_dom; eauto.
Qed.

Lemma multiply_layers_loop_keys (layers : list Layer) :
  forall x : Array,
    returns (multiply_layers_loop x layers) ->
    Forall (fun layer => "EMB2FF" ∈ dom layer /\ "FF2EMB" ∈ dom layer) layers.
Proof.
  induction layers as [|layer rest IH]; intros x Hret; [constructor|].
  simpl in Hret.
  destruct (multiply_layer x layer) as [e|y] eqn:Ey.
  - destruct Hret as [? Habs]. discriminate Habs.
  - constructor.
    + apply (multiply_layer_keys x). rewrite Ey. by eexists.
    + exact (IH _ Hret).
Qed.

Lemma loss_returns_keys (in_act : Array) (in_layers : list Layer) :
  returns (multiply_layers_with_loss in_act in_layers) ->
  Forall (fun layer => "EMB2FF" ∈ dom layer /\ "FF2EMB" ∈ dom layer) in_layers.
Proof.
  intros [v Hv]. apply (multiply_layers_loop_keys in_layers in_act).
  unfold multiply_layers_with_loss, multiply_layers in Hv.
  destruct (multiply_layers_loop in_act in_layers) as [?|y];
    [discriminate|by eexists].
Qed.

(** C5. When the forward pass is defined on the activations and the
    layers, [training_step] returns a tuple with as many layers as the
    input, each with the keys of the input layer (among them ["EMB2FF"]
    and ["FF2EMB"]), and every leaf is the input parameter minus 1e-4
    times the leaf at the same place of the gradient of
    [multiply_layers_with_loss] with respect to the layers; the leaf
    keeps the shape and dtype of the parameter. *)
Theorem training_step_sgd (in_act : Array) (in_layers : list Layer) :
  returns (multiply_layers_with_loss in_act in_layers) ->
  exists (v : Array) (grads out_layers : list Layer),
    value_and_grad multiply_layers_with_loss in_act in_layers
      = inr (v, [grads]) /\
    multiply_layers_with_loss in_act in_layers = inr v /\
    training_step in_act in_layers = inr out_layers /\
    length out_layers = length in_layers /\
    forall (i : nat) (layer : Layer),
      in_layers !! i = Some layer ->
      exists out g : Layer,
        out_layers !! i = Some out /\
        grads !! i = Some g /\
        dom out = dom layer /\
        "EMB2FF" ∈ dom out /\ "FF2EMB" ∈ dom out /\
        forall (k : string) (param : Array),
          layer !! k = Some param ->
          exists grad : Array,
            g !! k = Some grad /\
            out !! k = Some (array_sub param (scalar_mul (1 # 10000) grad)) /\
            shape (array_sub param (scalar_mul (1 # 10000) grad))
              = shape param /\
            dtype_of (array_sub param (scalar_mul (1 # 10000) grad))
              = dtype_of param.
Proof.
  intros Hret. pose proof (loss_returns_keys _ _ Hret) as Hkeys.
  destruct Hret as [v Hv].
  destruct (value_and_grad_ok _ _ _ _ Hv) as (grads & Hgrad & Hsame).
  assert (Hdoms : Forall2 (fun d1 d2 : Layer => dom d1 = dom d2) in_layers grads).
  { eapply Forall2_impl; [exact Hsame|]. by intros l g [Hd _]. }
  exists v, grads, (zip_with (map_zip_with sgd_update) in_layers grads).
  split; [exact Hgrad|]. split; [exact Hv|]. split.
  { unfold training_step, multiply_layers_and_grad. rewrite Hgrad. simpl.
    by rewrite tree_map2_same_structure. }
  split.
  { rewrite length_zip_with. apply Forall2_length in Hsame. lia. }
  intros i layer Hi.
  destruct (Forall2_lookup_l _ _ _ _ _ Hsame Hi) as (g & Hg & Hdom & Hleaf).
  exists (map_zip_with sgd_update layer g), g.
  split; [by rewrite lookup_zip_with, Hi, Hg|].
  split; [exact Hg|].
  assert (Hout : dom (map_zip_with sgd_update layer g) = dom layer).
  { rewrite dom_map_zip_with_L, <- Hdom. apply (idemp_L (∩)). }
  split; [exact Hout|].
  rewrite Hout.
  pose proof (proj1 (Forall_lookup _ _) Hkeys i layer Hi) as [He Hf].
  split; [exact He|]. split; [exact Hf|].
  intros k param Hk.
  assert (Hgk : is_Some (g !! k)).
  { apply elem_of_dom. rewrite <- Hdom. apply elem_of_dom. eauto. }
  destruct Hgk as [grad Hgk]. exists grad.
  destruct (Hleaf k param grad Hk Hgk) as [Hshape Hdtype].
  split; [exact Hgk|]. split.
  { rewrite map_lookup_zip_with, Hk, Hgk. reflexivity. }
  split.
  - apply array_sub_shape. by rewrite scalar_mul_shape.
  - apply array_sub_dtype. by rewrite scalar_mul_dtype.
Qed.

End TrainingFacts.

(** ** The synthetic parameters and data *)

Section GeneratorFacts.
Context {Array Key : Type} `{JaxLaws Array Key}.
Variable args : Args.

Local Abbreviation Layer := (gmap string Array).

Lemma tuple_get_lt {A} (t : list A) (i : nat) :
  (i < length t)%nat -> exists a, tuple_get t i = inr a.
Proof.
  intros Hi. unfold tuple_get.
  destruct (lookup_lt_is_Some_2 t i Hi) as [a ->]. by exists a.
Qed.

Lemma gen_layer_ok (random_key : Key) :
  (0 <= embedding_dimension args)%Z ->
  exists layer,
    gen_layer args random_key = inr layer /\ generated_layer args layer.
Proof.
  intros Hemb. unfold gen_layer.
  assert (Hshape : Forall (fun d => 0 <= d)%Z [D_FF args; D_EMB args]).
  { unfold D_FF, D_EMB. repeat constructor; lia. }
  destruct (tuple_get_lt (random_split random_key 4) 0) as [k0 ->];
    [rewrite random_split_length; lia|].
  simpl.
  destruct (random_normal_ok k0 _ bfloat16 Hshape) as (n0 & -> & Hs0 & Hd0).
  simpl.
  destruct (tuple_get_lt (random_split random_key 4) 1) as [k1 ->];
    [rewrite random_split_length; lia|].
  simpl.
  destruct (random_normal_ok k1 _ bfloat16 Hshape) as (n1 & -> & Hs1 & Hd1).
  simpl. eexists. split; [reflexivity|]. split.
  - rewrite !dom_insert_L, dom_empty_L. set_solver.
  - intros k a Hk.
    destruct (decide (k = "FF2EMB")) as [->|Hne1].
    { rewrite lookup_insert_eq in Hk. injection Hk as <-.
      by rewrite scalar_mul_shape, scalar_mul_dtype. }
    rewrite lookup_insert_ne in Hk by done.
    destruct (decide (k = "EMB2FF")) as [->|Hne2].
    { rewrite lookup_insert_eq in Hk. injection Hk as <-.
      by rewrite scalar_mul_shape, scalar_mul_dtype. }
    rewrite lookup_insert_ne in Hk by done.
    rewrite lookup_empty in Hk. discriminate.
Qed.

Lemma gen_layers_loop_ok (n : nat) :
  (0 <= embedding_dimension args)%Z ->
  forall (random_key : Key) (layers : list Layer),
  exists new : list Layer,
    gen_layers_loop args n random_key layers = inr (layers ++ new) /\
    length new = n /\ Forall (generated_layer args) new.
Proof.
  intros Hemb. induction n as [|n IH]; intros random_key layers.
  - exists []. simpl. by rewrite app_nil_r.
  - simpl. pose proof (random_split_length random_key 2) as Hlen.
    destruct (random_split random_key 2) as [|k1 [|k2 [|k3 ks]]];
      simpl in Hlen; try lia.
    destruct (gen_layer_ok k2 Hemb) as (layer & -> & Hlayer). simpl.
    destruct (IH k1 (layers ++ [layer])) as (new & -> & Hnew & Hall).
    exists (layer :: new). rewrite <- app_assoc. simpl.
    split; [done|]. split; [lia|by constructor].
Qed.

(** C6. With a nonnegative number of layers, embedding dimension and
    batch size, [gen_layers] returns for every key a tuple of exactly
    [num_layers] layers, each a dict with exactly the keys ["EMB2FF"]
    and ["FF2EMB"] whose values are bfloat16 arrays of shape
    [(4 * embedding_dimension, embedding_dimension)], and [gen_data]
    returns a bfloat16 array of shape [(num_devices * batch_size,
    embedding_dimension)]. *)
Theorem generators_shapes (devices : list Device) (random_key : Key) :
  (0 <= num_layers args)%Z ->
  (0 <= embedding_dimension args)%Z ->
  (0 <= batch_size args)%Z ->
  (exists layers : list Layer,
      gen_layers args random_key = inr layers /\
      Z.of_nat (length layers) = num_layers args /\
      forall layer : Layer,
        layer ∈ layers ->
        dom layer = ({["EMB2FF"; "FF2EMB"]} : gset string) /\
        forall (k : string) (a : Array),
          layer !! k = Some a ->
          shape a = [D_FF args; D_EMB args] /\
          shape a
          = [(4 * embedding_dimension args)%Z; embedding_dimension args] /\
          dtype_of a = bfloat16) /\
  (exists x : Array,
      gen_data args devices random_key = inr x /\
      shape x = [BATCH args devices; embedding_dimension args] /\
      BATCH args devices = (len devices * batch_size args)%Z /\
      dtype_of x = bfloat16).
Proof.
  intros Hlayers Hemb Hbatch. split.
  - destruct (gen_layers_loop_ok (Z.to_nat (num_layers args)) Hemb random_key [])
      as (new & Hrun & Hlen & Hall).
    exists new. split; [exact Hrun|]. split; [lia|].
    intros layer Hin.
    destruct (proj1 (Forall_forall _ _) Hall layer Hin) as [Hdom Hleaf].
    split; [exact Hdom|]. intros k a Hk.
    destruct (Hleaf k a Hk) as [Hs Hd]. by repeat split.
  - unfold gen_data.
    assert (Hshape : Forall (fun d => 0 <= d)%Z [BATCH args devices; D_EMB args]).
    { unfold BATCH, D_EMB, len. repeat constructor; lia. }
    destruct (random_uniform_ok random_key _ bfloat16 Hshape)
      as (x & -> & Hs & Hd).
    exists x. by repeat split.
Qed.

End GeneratorFacts.

(** ** The statements at concrete inputs *)

Import Model.

Lemma same_structure_refl (ls : list (gmap string shaped)) :
  same_structure ls ls.
Proof.
  apply Forall2_same_length_lookup. split; [done|].
  intros i l g Hl Hg. rewrite Hl in Hg. injection Hg as <-.
  split; [done|]. intros k a b Ha Hb. rewrite Ha in Hb.
  injection Hb as <-. by split.
Qed.

Lemma shaped_random_ok (k : nat) (shp : list Z) (dt : dtype) :
  Forall (fun d => 0 <= d)%Z shp ->
  exists a, shaped_random k shp dt = inr a /\ s_shape a = shp /\ s_dtype a = dt.
Proof.
  intros Hshp. unfold shaped_random.
  assert (Hb : forallb (Z.leb 0) shp = true).
  { apply forallb_forall. intros d Hd. apply Z.leb_le.
    exact (proj1 (List.Forall_forall _ _) Hshp d Hd). }
  rewrite Hb. by eexists.
Qed.

#[export] Instance shaped_laws : JaxLaws shaped nat.
Proof.
  split.
  - intros k num. simpl. by rewrite length_map, length_seq.
  - exact shaped_random_ok.
  - exact shaped_random_ok.
  - reflexivity.
  - reflexivity.
  - reflexivity.
  - reflexivity.
  - intros f x ls v Hv. exists ls. simpl. unfold shaped_value_and_grad.
    rewrite Hv. split; [reflexivity|apply same_structure_refl].
Qed.

Lemma simple_timeit_mean_witness :
  (1 <= 3)%Z /\
  fst (simple_timeit (F := Q) clock two_seconds (Some 3%Z) None 0%Z)
  = inr (mean (durations clock two_seconds 3 (two_seconds 0%Z))).
Proof.
  assert (Htries : (1 <= 3)%Z) by lia.
  split; [exact Htries|].
  exact (proj1 (proj2
           (simple_timeit_mean clock two_seconds 3%Z None 0%Z Htries))).
Defined.

Lemma simple_timeit_call_count_witness :
  (0 <= 3)%Z /\
  Z.of_nat
    (length
       (filter (fun e => is_call e = true)
          (snd (snd (simple_timeit (F := Q) (logged_now clock)
                       (logged_call two_seconds) (Some 3%Z) None
                       (0%Z, []))))))
  = (3 + 1)%Z.
Proof.
  assert (Htries : (0 <= 3)%Z) by lia.
  split; [exact Htries|].
  destruct (proj1 (simple_timeit_call_count (F := Q) clock two_seconds 3%Z
                     None 0%Z Htries))
    as (readings & _ & _ & Hcount & _).
  exact Hcount.
Defined.


Lemma training_step_sgd_witness :
  returns (multiply_layers_with_loss small_act [small_layer; small_layer]) /\
  exists out_layers : list (gmap string shaped),
    training_step small_act [small_layer; small_layer] = inr out_layers /\
    length out_layers = 2%nat.
Proof.
  assert (Hret : returns (multiply_layers_with_loss small_act
                            [small_layer; small_layer]))
    by (eexists; vm_compute; reflexivity).
  split; [exact Hret|].
  destruct (training_step_sgd small_act [small_layer; small_layer] Hret)
    as (v & grads & out_layers & _ & _ & Hstep & Hlen & _).
  exists out_layers. split; [exact Hstep|exact Hlen].
Defined.

Lemma generators_shapes_witness :
  ((0 <= num_layers small_args)%Z /\
   (0 <= embedding_dimension small_args)%Z /\
   (0 <= batch_size small_args)%Z) /\
  (exists layers : list (gmap string shaped),
      gen_layers small_args 0%nat = inr layers /\
      Z.of_nat (length layers) = 2%Z) /\
  (exists x : shaped,
      gen_data small_args four_devices 0%nat = inr x /\
      shape x = [12; 2]%Z).
Proof.
  assert (Hl : (0 <= num_layers small_args)%Z) by (vm_compute; discriminate).
  assert (He : (0 <= embedding_dimension small_args)%Z)
    by (vm_compute; discriminate).
  assert (Hb : (0 <= batch_size small_args)%Z) by (vm_compute; discriminate).
  split; [by repeat split|].
  destruct (generators_shapes small_args four_devices 0%nat Hl He Hb)
    as [(layers & Hlayers & Hlen & _) (x & Hx & Hshape & _)].
  split.
  - exists layers. split; [exact Hlayers|exact Hlen].
  - exists x. split; [exact Hx|exact Hshape].
Defined.

(* ================================================================= *)
(** * Further properties of the code *)

Import Reference.

(** ** simple_timeit: edge cases and units *)

Section TimeitEdgeFacts.
Context {St F : Type} `{FloatOps F}.
Variable now : St -> Z * St.

(** X1. With [tries <= 0] the loop body never runs: [f] is called
    once, for the warm-up, the clock is never read, and the division of
    the empty sum by the empty count raises [ZeroDivisionError]. *)
Theorem simple_timeit_without_tries (f : St -> St) (tries : Z)
    (verbose : option bool) (st : St) :
  (tries <= 0)%Z ->
  simple_timeit (F := F) (logged_now now) (logged_call f)
    (Some tries) verbose (st, [])
  = (inl ZeroDivisionError, (f st, [EvCall])).
Proof.
  intros Htries. unfold simple_timeit. simpl.
  replace (Z.to_nat tries) with 0%nat by lia. reflexivity.
Qed.

End TimeitEdgeFacts.

Section TimeitUnitsFacts.
Local Open Scope Q_scope.

Lemma fsum_seconds (l : list Z) (acc : Q) :
  fold_left Qplus (map (fun us => inject_Z us / inject_Z 1000000) l) acc
  == acc + inject_Z (total l) / inject_Z 1000000.
Proof.
  revert acc. induction l as [|us l IH]; intros acc; simpl.
  - unfold total. simpl. field; discriminate.
  - rewrite IH. unfold total. simpl. fold (total l).
    rewrite inject_Z_plus. field; discriminate.
Qed.

(** X2. On a clock that advances only while [f] runs, with exact
    arithmetic, the average [simple_timeit] returns for [tries >= 1] is
    the total time of the timed calls (the calls after the warm-up), in
    microseconds, divided by [10^6 * tries]: an average in seconds. *)
Theorem simple_timeit_average_seconds (dur : nat -> Z) (tries : Z)
    (verbose : option bool) (t0 : Z) :
  (1 <= tries)%Z ->
  exists r : Q,
    fst (simple_timeit (F := Q) clock_now (clock_call dur)
           (Some tries) verbose (t0, 0%nat))
    = inr r /\
    r == inject_Z (total (map dur (seq 1 (Z.to_nat tries))))
         / (inject_Z 1000000 * inject_Z tries).
Proof.
  intros Htries. rewrite simple_timeit_result. simpl.
  rewrite clock_durations.
  destruct (Z.to_nat tries) as [|n] eqn:En; [lia|].
  set (l := seq 1 (S n)).
  assert (Hl : length l = S n) by apply length_seq.
  exists (mean (map (fun i => total_seconds (dur i)) l)). split.
  { destruct (map (fun i => total_seconds (dur i)) l) as [|d ds] eqn:Em;
      [|reflexivity].
    apply (f_equal length) in Em. rewrite length_map, Hl in Em.
    discriminate. }
  unfold mean. cbn [fsum of_int fdiv total_seconds Q_float].
  rewrite length_map, Hl.
  change (map (fun i => total_seconds (dur i)) l)
    with (map (fun i => inject_Z (dur i) / inject_Z 1000000) l).
  rewrite <- (map_map dur (fun us => inject_Z us / inject_Z 1000000)).
  rewrite fsum_seconds.
  replace (Z.of_nat (S n)) with tries by lia.
  assert (Hnz : ~ inject_Z tries == 0).
  { change 0 with (inject_Z 0). rewrite inject_Z_injective. lia. }
  field. exact Hnz.
Qed.

End TimeitUnitsFacts.

(** ** The timed section of the script *)

Section BenchmarkFacts.
Context {Array Key F St Bytes : Type} `{Jax Array Key} `{FloatOps F}.
Variable args : Args.
Variable now : St -> Z * St.
Variable start_trace : string -> St -> St.
Variable stop_trace : St -> St.
Variable run_jitted :
  script_function -> Array -> list (gmap string Array) -> St -> St.

(** Timing on the whole state is timing on the outside world; the
    files stay as they are. *)
Lemma timing_loop_on_outside (f : St -> St) (n : nat) :
  forall (outcomes : list F) (m : machine Bytes St),
    timing_loop (machine_now now) (on_outside f) n outcomes m
    = (fst (timing_loop now f n outcomes (outside m)),
       {| files := files m;
          outside := snd (timing_loop now f n outcomes (outside m)) |}).
Proof.
  induction n as [|n IH]; intros outcomes m; simpl.
  - by destruct m.
  - unfold machine_now at 1. destruct (now (outside m)) as [s st1]. simpl.
    unfold machine_now at 1. simpl. destruct (now (f st1)) as [e st2].
    rewrite IH. reflexivity.
Qed.

Lemma simple_timeit_on_outside (f : St -> St) (tries : option Z)
    (verbose : option bool) (m : machine Bytes St) :
  simple_timeit (F := F) (machine_now now) (on_outside f) tries verbose m
  = (fst (simple_timeit now f tries verbose (outside m)),
     {| files := files m;
        outside := snd (simple_timeit now f tries verbose (outside m)) |}).
Proof.
  unfold simple_timeit. rewrite timing_loop_on_outside. simpl.
  destruct (timing_loop now f _ _ _) as [outcomes st]. reflexivity.
Qed.




(** X4. If every timed run takes no measurable time, so that the
    average is zero, the last [print] raises [ZeroDivisionError] while
    formatting the TFLOP/s value: the script ends there, after the
    timing and before [deactivate_profiler], so a trace that was
    started is not stopped. *)
Theorem benchmark_zero_time (j : jitted) (devices : list Device) (key : Key)
    (m : machine Bytes St) (X : Array) (Ls : list (gmap string Array)) :
  run_gen_data args (pjit_gen_data j) devices key = inr X ->
  run_gen_layers args (pjit_gen_layers j) key = inr Ls ->
  len devices <> 0%Z ->
  int_truediv_overflow (F := F)
    (parameters args * 6 * BATCH args devices) (10 ^ 12) = false ->
  let timing :=
    simple_timeit (F := F) now (run_jitted (pjit_func j) X Ls) None None
      (activate_profiler start_trace (profiler_path args) (outside m)) in
  (exists time : F, fst timing = inr time /\ is_zero time = true) ->
  benchmark args now start_trace stop_trace run_jitted j devices key m
  = (inl ZeroDivisionError,
     {| files := files m; outside := snd timing |}).
Proof.
  intros HX HLs Hn Hfits timing (time & Htime & Hzero).
  unfold benchmark, pbind, lift, pret. rewrite HX, HLs.
  unfold TFLOPs_per_device, truediv_int_int, truediv_float_int.
  destruct (decide ((10 ^ 12)%Z = 0%Z)) as [Hz|_]; [discriminate Hz|].
  rewrite Hfits.
  simpl. destruct (decide (len devices = 0%Z)) as [Hz|_]; [contradiction|].
  rewrite simple_timeit_on_outside. simpl. fold timing.
  rewrite Htime. unfold truediv_float_float. rewrite Hzero. reflexivity.
Qed.

End BenchmarkFacts.

Section BenchmarkRunsFacts.
Context {Array Key F St Bytes : Type} `{Jax Array Key} `{FloatOps F}.
Variable args : Args.
Variable now : St -> Z * St.
Variable start_trace : string -> St -> St.
Variable stop_trace : St -> St.
Variable run_jitted :
  script_function -> Array -> list (gmap string Array) -> St -> St.

Lemma activate_profiler_unlogged (path : string) (w : St * list event) :
  snd (activate_profiler (fun p => unlogged (start_trace p)) path w) = snd w.
Proof.
  unfold activate_profiler. destruct (decide (path = "")); [done|].
  by destruct w.
Qed.

Lemma deactivate_profiler_unlogged (path : string) (w : St * list event) :
  snd (deactivate_profiler (unlogged stop_trace) path w) = snd w.
Proof.
  unfold deactivate_profiler. destruct (decide (path = "")); [done|].
  by destruct w.
Qed.

(** With calls and readings logged, a run of [simple_timeit] adds to
    the log the warm-up call and then one call between two readings
    per try. *)
Lemma simple_timeit_logged (f : St -> St) (tries : option Z)
    (verbose : option bool) (st : St) (log : list event) :
  exists (readings : list (Z * Z)) (st' : St),
    length readings = Z.to_nat (default 5%Z tries) /\
    simple_timeit (F := F) (logged_now now) (logged_call f) tries verbose
      (st, log)
    = (match readings with
       | [] => inl ZeroDivisionError
       | _ => inr (mean (map (fun r => total_seconds (snd r - fst r)) readings))
       end,
       (st', reverse (flat_map timed_events readings) ++ EvCall :: log)).
Proof.
  unfold simple_timeit.
  change (logged_call f (st, log)) with (f st, EvCall :: log).
  destruct (timing_loop_logged (F := F) now f
              (Z.to_nat (default 5%Z tries)) [] (f st) (EvCall :: log))
    as (readings & st' & Hlen & Hrun).
  exists readings, st'. split; [exact Hlen|].
  cbv zeta. rewrite Hrun. cbn [app].
  destruct readings as [|r rs]; [reflexivity|].
  cbn [map]. unfold truediv_float_int, mean.
  destruct (decide (Z.of_nat _ = 0%Z)) as [Hz|_];
    [cbn [length] in Hz; lia | reflexivity].
Qed.

(** X3. A run of the timed section that reaches the report has
    executed the compiled training step exactly six times, once to warm
    up and five times between two readings of the clock, and has read
    the clock ten times. *)
Theorem benchmark_runs_step_six_times (j : jitted) (devices : list Device)
    (key : Key) (m m' : machine Bytes (St * list event)) (rep : report F) :
  benchmark args (logged_now now)
    (fun p => unlogged (start_trace p)) (unlogged stop_trace)
    (fun fn X Ls => logged_call (run_jitted fn X Ls))
    j devices key m
  = (inr rep, m') ->
  exists readings : list (Z * Z),
    length readings = 5%nat /\
    reverse (snd (outside m'))
    = reverse (snd (outside m)) ++ EvCall :: flat_map timed_events readings /\
    length (filter (fun e => is_call e = true) (snd (outside m')))
    = (length (filter (fun e => is_call e = true) (snd (outside m))) + 6)%nat /\
    length (filter (fun e => is_call e = false) (snd (outside m')))
    = (length (filter (fun e => is_call e = false) (snd (outside m))) + 10)%nat.
Proof.
  unfold benchmark, pbind, lift, pret.
  destruct (run_gen_data _ _ _ _) as [?|X]; [discriminate|].
  destruct (run_gen_layers _ _ _) as [?|Ls]; [discriminate|].
  destruct (TFLOPs_per_device args devices) as [?|x]; [discriminate|].
  rewrite simple_timeit_on_outside.
  cbn [fst snd files outside on_outside].
  set (w := activate_profiler (fun p => unlogged (start_trace p))
              (profiler_path args) (outside m)).
  assert (Hw : snd w = snd (outside m)) by apply activate_profiler_unlogged.
  destruct w as [st log]. simpl in Hw. subst log.
  destruct (simple_timeit_logged
              (run_jitted (pjit_func j) X Ls) None None st (snd (outside m)))
    as (readings & st' & Hlen & Hrun).
  change (Z.to_nat (default 5%Z None)) with 5%nat in Hlen.
  rewrite Hrun. cbn [fst snd files outside on_outside].
  destruct (match readings with [] => _ | _ => _ end) as [?|time];
    [discriminate|].
  destruct (truediv_float_float x time) as [?|ps]; [discriminate|].
  intros [= _ <-]. cbn [fst snd files outside on_outside].
  rewrite deactivate_profiler_unlogged. cbn [snd].
  exists readings. split; [exact Hlen|].
  split.
  { rewrite reverse_app, reverse_involutive, reverse_cons.
    by rewrite <- app_assoc. }
  split.
  { rewrite filter_app, length_app, filter_reverse, length_reverse.
    rewrite count_calls_timed, Hlen.
    rewrite filter_cons_True by done. simpl. lia. }
  rewrite filter_app, length_app, filter_reverse, length_reverse.
  rewrite filter_cons_False by (simpl; discriminate).
  assert (Hnow : forall rs : list (Z * Z),
             length (filter (fun e => is_call e = false)
                       (flat_map timed_events rs))
             = (2 * length rs)%nat).
  { induction rs as [|r rs IH]; [done|].
    change (flat_map timed_events (r :: rs))
      with (EvNow (fst r) :: EvCall :: EvNow (snd r)
            :: flat_map timed_events rs).
    rewrite filter_cons_True by done.
    rewrite filter_cons_False by (simpl; discriminate).
    rewrite filter_cons_True by done. simpl. rewrite IH. lia. }
  rewrite Hnow, Hlen. lia.
Qed.

End BenchmarkRunsFacts.

(** ** The device mesh *)

Section MeshMoreFacts.
Context {DeviceArray : Type}.
Variable args : Args.
Variable jax_devices : list Device.
Variable create_device_mesh : list Z -> list Device -> result DeviceArray.
Variable create_hybrid_device_mesh :
  list Z -> list Z -> list Device -> result DeviceArray.

(** X5. When the two assertions pass and the product of the six
    parallelism degrees fits in 64 bits, so that NumPy computes it
    without wrapping around, the product is the number of devices, and
    every degree is nonzero and divides that number. *)
Theorem checked_degrees_divide (devices : list Device) :
  let product :=
    ((dcn_data_parallelism args * dcn_fsdp_parallelism args
      * dcn_tensor_parallelism args)
     * (ici_data_parallelism args * ici_fsdp_parallelism args
        * ici_tensor_parallelism args))%Z in
  check_devices args devices = inr tt ->
  (- 2 ^ 63 <= product < 2 ^ 63)%Z ->
  product = len devices /\
  Forall (fun d => (d | len devices)%Z /\ d <> 0%Z)
    (dcn_parallelism args ++ ici_parallelism args).
Proof.
  intros product Hok Hfits.
  apply check_devices_wrapped in Hok as [Hmany Hprod].
  fold product in Hprod. rewrite int64_small in Hprod by exact Hfits.
  split; [exact Hprod|]. subst product. clear Hfits.
  unfold dcn_parallelism, ici_parallelism. simpl.
  set (a := dcn_data_parallelism args) in *.
  set (b := dcn_fsdp_parallelism args) in *.
  set (c := dcn_tensor_parallelism args) in *.
  set (d := ici_data_parallelism args) in *.
  set (e := ici_fsdp_parallelism args) in *.
  set (f := ici_tensor_parallelism args) in *.
  repeat constructor; try (intros ->; lia); rewrite <- Hprod.
  - exists (b * c * (d * e * f))%Z. ring.
  - exists (a * c * (d * e * f))%Z. ring.
  - exists (a * b * (d * e * f))%Z. ring.
  - exists (a * b * c * (e * f))%Z. ring.
  - exists (a * b * c * (d * f))%Z. ring.
  - exists (a * b * c * (d * e))%Z. ring.
Qed.

Lemma multi_slice_env_first (devices : list Device) (d : Device) :
  devices !! 0%nat = Some d ->
  multi_slice_env devices = inr (bool_decide (is_Some (slice_index d))).
Proof. intros Hd. unfold multi_slice_env, tuple_get. by rewrite Hd. Qed.

(** The greatest element of a list is what [max] returns. *)
Lemma foldl_max_ge (l : list Z) :
  forall x, (x <= foldl Z.max x l)%Z /\
            Forall (fun y => (y <= foldl Z.max x l)%Z) l /\
            foldl Z.max x l ∈ x :: l.
Proof.
  induction l as [|y l IH]; intros x; simpl.
  - split; [lia|]. split; [constructor|]. apply list_elem_of_here.
  - destruct (IH (Z.max x y)) as (Hge & Hall & Hin).
    split; [lia|]. split.
    + constructor; [lia|exact Hall].
    + apply elem_of_cons in Hin as [Heq|Hin].
      * rewrite Heq. destruct (Z.max_spec x y) as [[_ ->]|[_ ->]].
        -- apply list_elem_of_further, list_elem_of_here.
        -- apply list_elem_of_here.
      * by apply list_elem_of_further, list_elem_of_further.
Qed.

Lemma py_max_greatest (l : list Z) (M : Z) :
  M ∈ l -> Forall (fun y => (y <= M)%Z) l -> py_max l = inr M.
Proof.
  intros Hin Hall. destruct l as [|x l]; [by apply elem_of_nil in Hin|].
  simpl. f_equal.
  destruct (foldl_max_ge l x) as (Hx & Hl & Hmem).
  assert (Hle : (foldl Z.max x l <= M)%Z)
    by exact (proj1 (Forall_forall _ _) Hall _ Hmem).
  assert (Hge : (M <= foldl Z.max x l)%Z).
  { apply elem_of_cons in Hin as [->|Hin]; [exact Hx|].
    exact (proj1 (Forall_forall _ _) Hl _ Hin). }
  lia.
Qed.

Lemma slice_indices_all (ds : list Device) :
  Forall (fun d => is_Some (slice_index d)) ds ->
  exists l, slice_indices ds = inr l /\
            Forall2 (fun d i => slice_index d = Some i) ds l.
Proof.
  induction 1 as [|d ds [i Hi] _ (l & Hl & Hall)]; simpl.
  - exists []. by split.
  - rewrite Hi, Hl. exists (i :: l). split; [reflexivity|by constructor].
Qed.

Lemma slice_indices_missing (ds : list Device) :
  Exists (fun d => slice_index d = None) ds ->
  slice_indices ds = inl AttributeError.
Proof.
  induction 1 as [d ds Hd|d ds _ IH]; simpl.
  - by rewrite Hd.
  - destruct (slice_index d); [|reflexivity]. by rewrite IH.
Qed.

Lemma max_slice_index_greatest (M : Z) :
  Exists (fun d => slice_index d = Some M) jax_devices ->
  Forall (fun d => exists i, slice_index d = Some i /\ (i <= M)%Z) jax_devices ->
  max_slice_index jax_devices = inr M.
Proof.
  intros Hex Hall. unfold max_slice_index.
  destruct (slice_indices_all jax_devices) as (l & -> & Hl).
  { eapply Forall_impl; [exact Hall|]. intros d (i & Hi & _). by exists i. }
  simpl. apply py_max_greatest.
  - apply Exists_exists in Hex as (d & Hd & HM).
    apply list_elem_of_lookup in Hd as [k Hk].
    destruct (Forall2_lookup_l _ _ _ _ _ Hl Hk) as (i & Hi & Hsi).
    rewrite HM in Hsi. injection Hsi as <-.
    apply list_elem_of_lookup. by exists k.
  - apply Forall_forall. intros i Hi.
    apply list_elem_of_lookup in Hi as [k Hk].
    destruct (Forall2_lookup_r _ _ _ _ _ Hl Hk) as (d & Hd & Hsi).
    pose proof (proj1 (Forall_lookup _ _) Hall k d Hd) as (i' & Hi' & Hle).
    rewrite Hsi in Hi'. injection Hi' as <-. exact Hle.
Qed.

(** X6. When the first device of the topology has a [slice_index],
    and the two assertions pass, the mesh is the hybrid mesh exactly
    when [dcn_data_parallelism] is one more than the greatest
    [slice_index] among [jax.devices()]; otherwise the third assertion
    fails. *)
Theorem multi_slice_mesh (devices : list Device) (d : Device) (M : Z) :
  check_devices args devices = inr tt ->
  devices !! 0%nat = Some d ->
  is_Some (slice_index d) ->
  Exists (fun dj => slice_index dj = Some M) jax_devices ->
  Forall (fun dj => exists i, slice_index dj = Some i /\ (i <= M)%Z)
    jax_devices ->
  (dcn_data_parallelism args = (1 + M)%Z ->
   build_mesh args jax_devices create_device_mesh create_hybrid_device_mesh
     devices
   = let* devices_array :=
       create_hybrid_device_mesh (ici_parallelism args)
         (dcn_parallelism args) devices in
     ret {| mesh_devices := devices_array;
            axis_names := ["data"; "fsdp"; "tensor"] |}) /\
  (dcn_data_parallelism args <> (1 + M)%Z ->
   exists msg : string,
     build_mesh args jax_devices create_device_mesh create_hybrid_device_mesh
       devices
     = inl (AssertionError msg)).
Proof.
  intros Hok Hd Hslice Hex Hall.
  pose proof (max_slice_index_greatest M Hex Hall) as Hmax.
  assert (Hjd : exists d0, jax_devices !! 0%nat = Some d0).
  { apply Exists_exists in Hex as (dj & Hdj & _).
    destruct jax_devices as [|d0 ?]; [by apply elem_of_nil in Hdj|].
    by exists d0. }
  destruct Hjd as [d0 Hd0].
  unfold build_mesh, create_devices_array. rewrite Hok. simpl.
  rewrite (multi_slice_env_first devices d Hd). simpl.
  rewrite bool_decide_eq_true_2 by done. rewrite Hmax. simpl.
  split; intros Hdcn.
  - by rewrite bool_decide_eq_true_2.
  - rewrite bool_decide_eq_false_2 by done.
    unfold tuple_get. rewrite Hd0. simpl. by eexists.
Qed.

(** X7. In the same situation, a device of [jax.devices()] without a
    [slice_index] ends the script with [AttributeError], and an empty
    [jax.devices()] with the [ValueError] of [max] on an empty
    sequence; no mesh is built. *)
Theorem multi_slice_mesh_errors (devices : list Device) (d : Device) :
  check_devices args devices = inr tt ->
  devices !! 0%nat = Some d ->
  is_Some (slice_index d) ->
  (Exists (fun dj => slice_index dj = None) jax_devices ->
   build_mesh args jax_devices create_device_mesh create_hybrid_device_mesh
     devices
   = inl AttributeError) /\
  (jax_devices = [] ->
   build_mesh args jax_devices create_device_mesh create_hybrid_device_mesh
     devices
   = inl ValueError).
Proof.
  intros Hok Hd Hslice.
  unfold build_mesh, create_devices_array. rewrite Hok. simpl.
  rewrite (multi_slice_env_first devices d Hd). simpl.
  rewrite bool_decide_eq_true_2 by done.
  split.
  - intros Hmissing. unfold max_slice_index.
    by rewrite slice_indices_missing.
  - intros Hempty. unfold max_slice_index. rewrite Hempty. reflexivity.
Qed.

End MeshMoreFacts.

Section SingleSliceFacts.
Context {DeviceArray : Type}.


End SingleSliceFacts.

(** ** The script as a whole and its files *)

Section ScriptMoreFacts.
Context {Array Key F St DeviceArray Bytes : Type}.
Context `{Jax Array Key} `{FloatOps F}.
Variable args : Args.
Variable get_topology_desc : topology_request -> list Device.
Variable jax_devices : list Device.
Variable create_device_mesh : list Z -> list Device -> result DeviceArray.
Variable create_hybrid_device_mesh :
  list Z -> list Z -> list Device -> result DeviceArray.
Variable pickled_executable :
  xaot_request (Array := Array) (DeviceArray := DeviceArray) -> result Bytes.
Variable now : St -> Z * St.
Variable start_trace : string -> St -> St.
Variable stop_trace : St -> St.
Variable run_jitted :
  script_function -> Array -> list (gmap string Array) -> St -> St.

(** X9. If an assertion on the device list fails, or the mesh cannot
    be created, the script ends with that exception before it has
    written a file, started the profiler, read the clock or run
    anything on the devices: the state is the one it started in. *)
Theorem script_stops_before_effects (m : machine Bytes St) (e : exn) :
  build_mesh args jax_devices create_device_mesh create_hybrid_device_mesh
    (get_topology_desc v4_8)
  = inl e ->
  script (F := F) args get_topology_desc jax_devices create_device_mesh
    create_hybrid_device_mesh pickled_executable now start_trace stop_trace
    run_jitted m
  = (inl e, m).
Proof.
  intros Hmesh. unfold script. unfold pbind at 1, lift at 1. simpl.
  unfold pbind at 1, lift at 1. fold v4_8. by rewrite Hmesh.
Qed.

(** What one [xaot_save] does to the state, whether it returns or
    raises. *)
Lemma xaot_save_cases func mesh pickle_filename example_args
    in_shardings out_shardings verbose (m : machine Bytes St) :
  let request :=
    {| xr_func := func; xr_mesh := mesh; xr_example_args := example_args;
       xr_in_shardings := in_shardings; xr_out_shardings := out_shardings |} in
  xaot_save (St := St) pickled_executable func mesh pickle_filename
    example_args in_shardings out_shardings verbose m
  = match pickled_executable request with
    | inl e => (inl e, m)
    | inr serialized =>
        (inr func,
         {| files := <[pickle_filename := serialized]> (files m);
            outside := outside m |})
    end.
Proof.
  intros request. unfold xaot_save, pbind, lift. fold request.
  by destruct (pickled_executable request).
Qed.



Local Ltac stopped_after_layers :=
  let E := fresh in
  intros E _; simpl in E; injection E as _ E; rewrite <- E; simpl;
  split; [done|by rewrite lookup_insert_eq].

(** X11. How far the saves get when a compilation fails.  If the first
    fails nothing is written.  If the first succeeds and the second
    fails only ['data_sharding.pkl'] is written.  If both succeed and
    the block still raises (the example arguments cannot be generated,
    or the training step does not compile), ['layers_sharding.pkl'] is
    left holding the [gen_layers] executable. *)
Theorem save_stage_failures (use_mesh : Mesh DeviceArray)
    (devices : list Device) (key : Key) (m : machine Bytes St) :
  let run := save_stage args pickled_executable use_mesh devices key m in
  (forall e, pickled_executable (data_request use_mesh) = inl e ->
             run = (inl e, m)) /\
  (forall b_data e,
      pickled_executable (data_request use_mesh) = inr b_data ->
      pickled_executable (layers_request use_mesh) = inl e ->
      run = (inl e,
             {| files := <["data_sharding.pkl" := b_data]> (files m);
                outside := outside m |})) /\
  (forall b_data b_layers e,
      pickled_executable (data_request use_mesh) = inr b_data ->
      pickled_executable (layers_request use_mesh) = inr b_layers ->
      fst run = inl e ->
      files (snd run)
      = <["layers_sharding.pkl" := b_layers]>
          (<["data_sharding.pkl" := b_data]> (files m)) /\
      files (snd run) !! "layers_sharding.pkl" = Some b_layers).
Proof.
  intros run. subst run.
  destruct (save_stage args pickled_executable use_mesh devices key m)
    as [r m'] eqn:E.
  revert E. unfold save_stage. simpl.
  unfold pbind at 1. rewrite xaot_save_cases. fold (data_request (Array := Array) use_mesh).
  intros E. split; [|split].
  - intros e He. rewrite He in E. by rewrite <- E.
  - intros b_data e Hd Hl. rewrite Hd in E. revert E.
    unfold pbind at 1. rewrite xaot_save_cases.
    fold (layers_request (Array := Array) use_mesh). rewrite Hl.
    by intros <-.
  - intros b_data b_layers e Hd Hl. rewrite Hd in E. revert E.
    unfold pbind at 1. rewrite xaot_save_cases.
    fold (layers_request (Array := Array) use_mesh). rewrite Hl.
    cbv beta iota. unfold pbind at 1, lift at 1.
    destruct (run_gen_data _ _ _ _) as [?|X]; [stopped_after_layers|].
    unfold pbind at 1, lift at 1.
    destruct (run_gen_layers _ _ _) as [?|Ls]; [stopped_after_layers|].
    unfold pbind at 1. rewrite xaot_save_cases.
    fold (step_request use_mesh X Ls).
    destruct (pickled_executable (step_request use_mesh X Ls)) as [?|b_step];
      [stopped_after_layers|].
    intros E Hr. simpl in E. injection E as Er _.
    rewrite <- Er in Hr. discriminate Hr.
Qed.

End ScriptMoreFacts.

(** ** The generated layers and the forward pass *)

Section LayersMoreFacts.
Context {Array Key : Type} `{JaxLaws Array Key}.
Variable args : Args.

Local Abbreviation Layer := (gmap string Array).

Lemma gen_layers_loop_collect (n : nat) :
  forall (random_key : Key) (layers : list Layer),
    gen_layers_loop args n random_key layers
    = match collect (map (gen_layer args) (sub_keys n random_key)) with
      | inl e => inl e
      | inr new => inr (layers ++ new)
      end.
Proof.
  induction n as [|n IH]; intros random_key layers; simpl.
  - by rewrite app_nil_r.
  - pose proof (random_split_length random_key 2) as Hlen.
    destruct (random_split random_key 2) as [|k1 [|k2 [|k3 ks]]];
      simpl in Hlen; try lia.
    simpl. destruct (gen_layer args k2) as [e|layer]; [reflexivity|].
    simpl. rewrite IH.
    destruct (collect (map (gen_layer args) (sub_keys n k1))) as [e|new];
      [reflexivity|].
    by rewrite <- app_assoc.
Qed.

(** X12. [gen_layers] generates its layers in order from a chain of
    keys: each iteration splits the current key in two, generates a
    layer from the second and goes on with the first.  The result is
    the tuple of these layers, or the exception of the first layer that
    cannot be generated; for [num_layers <= 0] it is the empty tuple
    and no key is split. *)
Theorem gen_layers_key_chain (random_key : Key) :
  gen_layers args random_key
  = collect (map (gen_layer args)
               (sub_keys (Z.to_nat (num_layers args)) random_key)) /\
  length (sub_keys (Z.to_nat (num_layers args)) random_key)
  = Z.to_nat (num_layers args) /\
  ((num_layers args <= 0)%Z -> gen_layers args random_key = inr []).
Proof.
  split; [|split].
  - unfold gen_layers, NUM_LAYERS. rewrite gen_layers_loop_collect.
    by destruct (collect _).
  - generalize (Z.to_nat (num_layers args)) as n. intros n.
    revert random_key. induction n as [|n IH]; intros random_key; simpl;
      [done|].
    pose proof (random_split_length random_key 2) as Hlen.
    destruct (random_split random_key 2) as [|k1 [|k2 [|k3 ks]]];
      simpl in Hlen; try lia.
    simpl. by rewrite IH.
  - intros Hn. unfold gen_layers, NUM_LAYERS.
    replace (Z.to_nat (num_layers args)) with 0%nat by lia. reflexivity.
Qed.

Lemma multiply_layers_loop_app (ls1 ls2 : list Layer) :
  forall x : Array,
    multiply_layers_loop x (ls1 ++ ls2)
    = let* y := multiply_layers_loop x ls1 in multiply_layers_loop y ls2.
Proof.
  induction ls1 as [|layer ls1 IH]; intros x; simpl; [done|].
  destruct (multiply_layer x layer) as [e|y]; [reflexivity|].
  simpl. apply IH.
Qed.

(** X13. The forward pass composes: running [multiply_layers] on the
    concatenation of two tuples of layers is running it on the first
    and then, on the activations that result, on the second; the layers
    are returned unchanged, and on the empty tuple the activations are
    returned as they came. *)
Theorem multiply_layers_compose (in_act : Array) (ls1 ls2 : list Layer) :
  multiply_layers in_act (ls1 ++ ls2)
  = (let* r1 := multiply_layers in_act ls1 in
     let* r2 := multiply_layers (fst r1) ls2 in
     ret (fst r2, snd r1 ++ snd r2)) /\
  multiply_layers in_act [] = inr (in_act, []) /\
  (forall r, multiply_layers in_act ls1 = inr r -> snd r = ls1).
Proof.
  split; [|split].
  - unfold multiply_layers. rewrite multiply_layers_loop_app.
    destruct (multiply_layers_loop in_act ls1) as [e|y]; [reflexivity|].
    simpl. by destruct (multiply_layers_loop y ls2).
  - reflexivity.
  - intros r. unfold multiply_layers.
    destruct (multiply_layers_loop in_act ls1) as [e|y]; [discriminate|].
    simpl. by intros [= <-].
Qed.

(** X14. A layer without one of its two weights stops the forward
    pass with [KeyError] for the missing name, ["EMB2FF"] being looked
    up first, once the layers before it have been applied; the layers
    after it are not looked at. *)
Theorem forward_missing_weight (in_act y : Array)
    (ls1 ls2 : list Layer) (layer : Layer) :
  multiply_layers_loop in_act ls1 = inr y ->
  (layer !! "EMB2FF" = None ->
   multiply_layers_with_loss in_act (ls1 ++ layer :: ls2)
   = inl (KeyError "EMB2FF")) /\
  (forall w1 m1 : Array,
      layer !! "EMB2FF" = Some w1 ->
      matmul y (transpose w1) = inr m1 ->
      layer !! "FF2EMB" = None ->
      multiply_layers_with_loss in_act (ls1 ++ layer :: ls2)
      = inl (KeyError "FF2EMB")).
Proof.
  intros Hy.
  assert (Hloss : multiply_layers_with_loss in_act (ls1 ++ layer :: ls2)
                  = let* z := multiply_layers_loop y (layer :: ls2) in
                    ret (jnp_sum z)).
  { unfold multiply_layers_with_loss, multiply_layers.
    rewrite multiply_layers_loop_app, Hy. simpl.
    by destruct (let* y0 := multiply_layer y layer in _). }
  rewrite Hloss. simpl. unfold multiply_layer, getitem. split.
  - intros ->. reflexivity.
  - intros w1 m1 -> Hm ->. simpl. rewrite Hm. reflexivity.
Qed.

End LayersMoreFacts.

(** ** Sizes and the slice name *)

Section SizeFacts.
Variable args : Args.

(** X15. The memory estimate the script prints: the parameters take
    [16 * embedding_dimension^2 * num_layers] bytes, the activations
    [10 * num_devices * batch_size * embedding_dimension * num_layers]
    bytes, and the total is their sum; parameters are counted once,
    activations per device and per example. *)
Theorem memory_bytes_closed_form (devices : list Device) :
  parameter_bytes args
  = (16 * embedding_dimension args ^ 2 * num_layers args)%Z /\
  activation_bytes args devices
  = (10 * len devices * batch_size args * embedding_dimension args
     * num_layers args)%Z /\
  memory_bytes args devices
  = (2 * embedding_dimension args * num_layers args
     * (8 * embedding_dimension args
        + 5 * len devices * batch_size args))%Z.
Proof.
  unfold memory_bytes, parameter_bytes, activation_bytes, parameters,
    BATCH, D_FF, D_EMB, NUM_LAYERS.
  repeat split; ring.
Qed.

End SizeFacts.

Section SliceNameFacts.
Context {Config Devices Engine : Type}.
Variable MaxEngine : Config -> Engine.

(** X16. The slice name of the server configuration determines the
    device count: two device counts give the same interleaved slices
    only if they are equal. *)
Theorem interleaved_slices_determine_count (n1 n2 : nat) (cfg : Config)
    (sc1 sc2 : ServerConfig (Devices := Devices)) :
  get_server_config MaxEngine n1 "MaxtextInterleavedServer" cfg = inr sc1 ->
  get_server_config MaxEngine n2 "MaxtextInterleavedServer" cfg = inr sc2 ->
  interleaved_slices sc1 = interleaved_slices sc2 ->
  n1 = n2.
Proof.
  rewrite !get_server_config_known. intros [= <-] [= <-]. simpl.
  intros [= Hpretty]. change (pretty n1 = pretty n2) in Hpretty.
  exact (pretty_nat_inj n1 n2 Hpretty).
Qed.

End SliceNameFacts.

(** ** The further statements at concrete inputs *)

Lemma simple_timeit_without_tries_witness :
  (0 <= 0)%Z /\
  simple_timeit (F := Q) (logged_now clock) (logged_call two_seconds)
    (Some 0%Z) None (0%Z, [])
  = (inl ZeroDivisionError, (two_seconds 0%Z, [EvCall])).
Proof.
  assert (Htries : (0 <= 0)%Z) by lia.
  split; [exact Htries|].
  exact (simple_timeit_without_tries (F := Q) clock two_seconds 0%Z None 0%Z
           Htries).
Defined.

Lemma simple_timeit_average_seconds_witness :
  (1 <= 3)%Z /\
  exists r : Q,
    fst (simple_timeit (F := Q) clock_now (clock_call (fun k => Z.of_nat k))
           (Some 3%Z) None (0%Z, 0%nat))
    = inr r /\
    (r == inject_Z (total (map (fun k => Z.of_nat k) (seq 1 (Z.to_nat 3))))
          / (inject_Z 1000000 * inject_Z 3))%Q.
Proof.
  assert (Htries : (1 <= 3)%Z) by lia.
  split; [exact Htries|].
  exact (simple_timeit_average_seconds (fun k => Z.of_nat k) 3%Z None 0%Z
           Htries).
Defined.

Lemma benchmark_runs_step_six_times_witness :
  exists (rep : report Q) (m' : machine nat (Z * list event)),
    benchmark (Array := shaped) (Key := nat) small_args (logged_now clock)
      (fun p => unlogged (fun st => st)) (unlogged (fun st => st))
      (fun _ _ _ => logged_call two_seconds)
      script_jitted four_devices 0%nat
      {| files := ∅; outside := (0%Z, []) |}
    = (inr rep, m') /\
    length (filter (fun e => is_call e = true) (snd (outside m'))) = 6%nat.
Proof.
  set (run := benchmark (Array := shaped) (Key := nat) (F := Q) (Bytes := nat)
                small_args (logged_now clock)
                (fun p => unlogged (fun st => st)) (unlogged (fun st => st))
                (fun _ _ _ => logged_call two_seconds)
                script_jitted four_devices 0%nat
                {| files := ∅; outside := (0%Z, []) |}).
  assert (Hok : match fst run with inr _ => True | inl _ => False end)
    by (vm_compute; exact I).
  destruct run as [[e|rep] m'] eqn:Hrun; [destruct Hok|].
  exists rep, m'. split; [reflexivity|].
  destruct (benchmark_runs_step_six_times (Array := shaped) (Key := nat)
              small_args clock (fun _ st => st) (fun st => st)
              (fun _ _ _ => two_seconds)
              script_jitted four_devices 0%nat _ m' rep Hrun)
    as (readings & _ & _ & Hcalls & _).
  exact Hcalls.
Defined.

Lemma benchmark_zero_time_witness :
  exists m' : machine nat Z,
    benchmark (Array := shaped) (Key := nat) (F := Q) small_args clock
      (fun _ st => st) (fun st => st) (fun _ _ _ => instant)
      script_jitted four_devices 0%nat empty_machine
    = (inl ZeroDivisionError, m').
Proof.
  eexists.
  apply (benchmark_zero_time (Array := shaped) (Key := nat) (F := Q)
           small_args clock (fun _ st => st) (fun st => st)
           (fun _ _ _ => instant) script_jitted four_devices 0%nat
           empty_machine small_act [small_layer; small_layer]).
  - vm_compute. reflexivity.
  - vm_compute. reflexivity.
  - vm_compute. discriminate.
  - reflexivity.
  - eexists. split; vm_compute; reflexivity.
Defined.

Lemma checked_degrees_divide_witness :
  (check_devices small_args four_devices = inr tt /\
   (- 2 ^ 63 <= 1 * 1 * 1 * (1 * 4 * 1) < 2 ^ 63)%Z) /\
  Forall (fun d => (d | len four_devices)%Z /\ d <> 0%Z)
    (dcn_parallelism small_args ++ ici_parallelism small_args).
Proof.
  assert (Hok : check_devices small_args four_devices = inr tt)
    by (vm_compute; reflexivity).
  assert (Hfits : (- 2 ^ 63 <= 1 * 1 * 1 * (1 * 4 * 1) < 2 ^ 63)%Z)
    by (split; [discriminate|reflexivity]).
  split; [by split|].
  exact (proj2 (checked_degrees_divide small_args four_devices Hok Hfits)).
Defined.

Lemma multi_slice_mesh_witness :
  (check_devices two_slice_args sliced_devices = inr tt /\
   dcn_data_parallelism two_slice_args = (1 + 1)%Z) /\
  build_mesh two_slice_args sliced_devices
    (fun _ devices => inr devices) (fun _ _ devices => inr devices)
    sliced_devices
  = inr {| mesh_devices := sliced_devices;
           axis_names := ["data"; "fsdp"; "tensor"] |}.
Proof.
  assert (Hok : check_devices two_slice_args sliced_devices = inr tt)
    by (vm_compute; reflexivity).
  assert (Hdcn : dcn_data_parallelism two_slice_args = (1 + 1)%Z)
    by reflexivity.
  split; [by split|].
  assert (Hfirst : sliced_devices !! 0%nat
                   = Some {| device_id := 0; slice_index := Some 0%Z;
                             device_str := "TpuDevice" |}) by reflexivity.
  assert (Hslice : is_Some (slice_index
                              {| device_id := 0; slice_index := Some 0%Z;
                                 device_str := "TpuDevice" |}))
    by (by eexists).
  assert (Hex : Exists (fun dj => slice_index dj = Some 1%Z) sliced_devices).
  { unfold sliced_devices. do 2 apply Exists_cons_tl.
    apply Exists_cons_hd. reflexivity. }
  assert (Hall : Forall (fun dj => exists i, slice_index dj = Some i
                                             /\ (i <= 1)%Z) sliced_devices).
  { unfold sliced_devices.
    repeat (apply List.Forall_cons;
            [eexists; split; [reflexivity|lia]|]).
    apply List.Forall_nil. }
  exact (proj1 (multi_slice_mesh (DeviceArray := list Device)
                  two_slice_args sliced_devices
                  (fun _ devices => inr devices)
                  (fun _ _ devices => inr devices)
                  sliced_devices _ 1%Z Hok Hfirst Hslice Hex Hall)
           Hdcn).
Defined.

Lemma multi_slice_mesh_errors_witness :
  check_devices two_slice_args sliced_devices = inr tt /\
  build_mesh two_slice_args four_devices
    (fun _ devices => inr devices) (fun _ _ devices => inr devices)
    sliced_devices
  = inl AttributeError.
Proof.
  assert (Hok : check_devices two_slice_args sliced_devices = inr tt)
    by (vm_compute; reflexivity).
  split; [exact Hok|].
  assert (Hfirst : sliced_devices !! 0%nat
                   = Some {| device_id := 0; slice_index := Some 0%Z;
                             device_str := "TpuDevice" |}) by reflexivity.
  assert (Hslice : is_Some (slice_index
                              {| device_id := 0; slice_index := Some 0%Z;
                                 device_str := "TpuDevice" |}))
    by (by eexists).
  assert (Hex : Exists (fun dj => slice_index dj = None) four_devices)
    by (apply Exists_cons_hd; reflexivity).
  exact (proj1 (multi_slice_mesh_errors (DeviceArray := list Device)
                  two_slice_args four_devices
                  (fun _ devices => inr devices)
                  (fun _ _ devices => inr devices)
                  sliced_devices _ Hok Hfirst Hslice)
           Hex).
Defined.


Lemma script_stops_before_effects_witness :
  script (Array := shaped) (Key := nat) (F := Q) (DeviceArray := list Device)
    small_args (fun _ => take 1 four_devices) four_devices
    (fun _ devices => inr devices) (fun _ _ devices => inr devices)
    numbered_executable clock (fun _ st => st) (fun st => st)
    (fun _ _ _ => two_seconds) empty_machine
  = (inl (AssertionError "You must have at least two devices"),
     empty_machine).
Proof.
  apply (script_stops_before_effects (Array := shaped) (Key := nat) (F := Q)
           (DeviceArray := list Device)).
  vm_compute. reflexivity.
Defined.

Lemma save_stage_failures_witness :
  exists m' : machine nat Z,
    save_stage (Array := shaped) (Key := nat) small_args
      step_does_not_compile four_mesh four_devices 0%nat empty_machine
    = (inl ValueError, m') /\
    files m' !! "layers_sharding.pkl" = Some 2%nat.
Proof.
  set (run := save_stage (Array := shaped) (Key := nat) (St := Z) small_args
                step_does_not_compile four_mesh four_devices 0%nat
                empty_machine).
  assert (Hfail : fst run = inl ValueError) by (vm_compute; reflexivity).
  assert (Hd : step_does_not_compile
                 (data_request (Array := shaped) four_mesh) = inr 1%nat)
    by reflexivity.
  assert (Hl : step_does_not_compile
                 (layers_request (Array := shaped) four_mesh) = inr 2%nat)
    by reflexivity.
  destruct (proj2 (proj2 (save_stage_failures (Array := shaped) (Key := nat)
                            (St := Z) small_args step_does_not_compile
                            four_mesh four_devices 0%nat empty_machine))
              1%nat 2%nat ValueError Hd Hl Hfail)
    as [_ Hlayers].
  exists (snd run). split; [|exact Hlayers].
  rewrite <- Hfail. by destruct run.
Defined.

Lemma gen_layers_key_chain_witness :
  (num_layers no_layers_args <= 0)%Z /\
  gen_layers (Array := shaped) (Key := nat) no_layers_args 0%nat = inr [].
Proof.
  assert (Hn : (num_layers no_layers_args <= 0)%Z) by (vm_compute; discriminate).
  split; [exact Hn|].
  exact (proj2 (proj2 (gen_layers_key_chain (Array := shaped) (Key := nat)
                         no_layers_args 0%nat))
           Hn).
Defined.

Lemma multiply_layers_compose_witness :
  multiply_layers small_act [small_layer]
  = inr (mkShaped [12; 2]%Z bfloat16, [small_layer]) /\
  snd (mkShaped [12; 2]%Z bfloat16, [small_layer]) = [small_layer].
Proof.
  assert (Hrun : multiply_layers small_act [small_layer]
                 = inr (mkShaped [12; 2]%Z bfloat16, [small_layer]))
    by (vm_compute; reflexivity).
  split; [exact Hrun|].
  exact (proj2 (proj2 (multiply_layers_compose small_act [small_layer] []))
           _ Hrun).
Defined.

Lemma forward_missing_weight_witness :
  (multiply_layers_loop small_act [small_layer]
   = inr (mkShaped [12; 2]%Z bfloat16)
   /\ half_layer !! "EMB2FF" = None) /\
  multiply_layers_with_loss small_act
    ([small_layer] ++ half_layer :: [small_layer])
  = inl (KeyError "EMB2FF").
Proof.
  assert (Hy : multiply_layers_loop small_act [small_layer]
               = inr (mkShaped [12; 2]%Z bfloat16))
    by (vm_compute; reflexivity).
  assert (Hmissing : half_layer !! "EMB2FF" = None)
    by (vm_compute; reflexivity).
  split; [by split|].
  exact (proj1 (forward_missing_weight small_act _ [small_layer]
                  [small_layer] half_layer Hy)
           Hmissing).
Defined.

Lemma interleaved_slices_determine_count_witness :
  exists sc : ServerConfig (Devices := unit) (Engine := nat),
    get_server_config (fun cfg : nat => cfg) 4 "MaxtextInterleavedServer" 7%nat
    = inr sc /\
    (4 = 4)%nat.
Proof.
  eexists. split; [reflexivity|].
  eapply (interleaved_slices_determine_count (Devices := unit)
            (fun cfg : nat => cfg) 4 4 7%nat);
    reflexivity.
Defined.


